(** * The ligand fetcher of the pdbeccdutils tutorial notebook

    A shallow embedding of the helper cell of
    [spring_school_2024/pdbeccdutils.ipynb]: the constants [PDBECHEM_URL] and
    [ENTRY_URL], the enumeration [ligandType] and the function
    [get_ligand_cif], together with the pieces of the Python runtime the
    function touches (string indexing, [os.path.join], exceptions, the
    [match] statement, [try]/[except], [requests.get], [open(.., "wb")],
    [print]).

    Modelling choices.
    - A Python [str] is a [string], a sequence of characters ([ascii] is the
      alphabet; only the separator ["/"] is told from the other characters);
      [bytes] is a [list byte].
    - [os.path] is [posixpath] (the notebook is meant for Colab, a POSIX
      system): the separator is ["/"].
    - The network and the disk are outside the program.  They are an
      [environment]: what [requests.get] answers for a URL (a response or an
      exception) and how the disk behaves for a path (fine, [open] raises,
      or the write raises after a prefix reached the file).
    - The process state is a [world]: the current working directory, the
      files (a finite map from path to content; no links), and the trace of
      the calls that leave the process ([requests.get], [open], [print]).
      A path is a key as it is spelled: the map does not resolve ["."],
      [".."] or doubled separators, so two paths are known to be two files
      only when they differ in a final component without separator.
    - Python is dynamically typed: the second argument of [get_ligand_cif]
      is a [pyobject], a member of [ligandType] or some other object.
    - [assert] statements are executed (the interpreter does not run with
      [-O]), and [os.getcwd] and [print] do not fail. *)

From Stdlib Require Import ZArith Ascii String List Lia.
From Stdlib.Strings Require Import Byte.
From stdpp Require Import base strings gmap.

Local Open Scope Z_scope.

(** ** Exceptions and results *)

Inductive exception : Type :=
| AttributeError
| IndexError
| UnboundLocalError
| AssertionError
| RequestException (cls : string)   (* requests.exceptions.*: Timeout, MissingSchema, ... *)
| OSError (cls : string).           (* FileNotFoundError, PermissionError, ... *)

(** [except AssertionError] catches [AssertionError] (it has no subclass
    among the exceptions above). *)
Definition is_AssertionError (e : exception) : bool :=
  match e with
  | AssertionError => true
  | _ => false
  end.

Inductive result (A : Type) : Type :=
| Ok (a : A)
| Raise (e : exception).
Arguments Ok {A} a.
Arguments Raise {A} e.

(** ** Python strings *)

Module Str.

Definition len (s : string) : Z := Z.of_nat (String.length s).

(** [s[i]]: a negative index counts from the end; out of range raises
    [IndexError]. *)
Definition getitem (s : string) (i : Z) : result string :=
  let j := if i <? 0 then i + len s else i in
  if (j <? 0) || (len s <=? j) then Raise IndexError
  else match String.get (Z.to_nat j) s with
       | Some c => Ok (String c EmptyString)
       | None => Raise IndexError
       end.

Definition is_empty (s : string) : bool :=
  match s with
  | EmptyString => true
  | String _ _ => false
  end.

(** The first and the last character, by structural recursion: what the
    specification calls the first and last character of an identifier. *)
Definition first_char (s : string) : option ascii :=
  match s with
  | EmptyString => None
  | String c _ => Some c
  end.

Fixpoint last_char (s : string) : option ascii :=
  match s with
  | EmptyString => None
  | String c EmptyString => Some c
  | String _ t => last_char t
  end.

End Str.

(** ** [os.path.join] of [posixpath] *)

Module PosixPath.

Definition sep : ascii := "/"%char.

Definition startswith_sep (b : string) : bool :=
  match Str.first_char b with
  | Some c => Ascii.eqb c sep
  | None => false
  end.

Definition endswith_sep (p : string) : bool :=
  match Str.last_char p with
  | Some c => Ascii.eqb c sep
  | None => false
  end.

(** One round of the loop of [join]:
    [[
      if b.startswith(sep):            path = b
      elif not path or path.endswith(sep): path += b
      else:                            path += sep + b
    ]] *)
Definition join_component (path b : string) : string :=
  if startswith_sep b then b
  else if Str.is_empty path || endswith_sep path then path +:+ b
  else path +:+ "/" +:+ b.

Definition join (a : string) (p : list string) : string :=
  fold_left join_component p a.

End PosixPath.

(** ** The enumeration and the constants of the notebook *)

Definition PDBECHEM_URL : string := "https://ftp.ebi.ac.uk/pub/databases/msd/pdbechem_v2".
Definition ENTRY_URL : string := "https://ftp.ebi.ac.uk/pub/databases/msd/updated_mmcif/all".

Inductive ligandType : Type := CCD | PRD | CLC.

(** [member.value] *)
Definition value (t : ligandType) : string :=
  match t with
  | CCD => "ccd"
  | PRD => "prd"
  | CLC => "clc"
  end.

(** [member.name] *)
Definition name (t : ligandType) : string :=
  match t with
  | CCD => "CCD"
  | PRD => "PRD"
  | CLC => "CLC"
  end.

(** ** Python objects passed as [ligand_type] *)

Inductive pyvalue : Type :=
| PyStr (s : string)
| PyInt (n : Z)
| PyNone.

(** A member of [ligandType], or any other object: [attr_value] is its
    [value] attribute when it has one, [shown] is what [str()] gives. *)
Inductive pyobject : Type :=
| Member (t : ligandType)
| Object (attr_value : option pyvalue) (shown : string).

Definition getattr_value (o : pyobject) : result pyvalue :=
  match o with
  | Member t => Ok (PyStr (value t))
  | Object (Some v) _ => Ok v
  | Object None _ => Raise AttributeError
  end.

(** [f"{o}"]: for a member of a plain [Enum], the class and member name. *)
Definition format (o : pyobject) : string :=
  match o with
  | Member t => "ligandType." +:+ name t
  | Object _ s => s
  end.

(** A literal pattern [case "lit":] matches a subject that is equal to the
    literal. *)
Definition matches_literal (subject : pyvalue) (lit : string) : bool :=
  match subject with
  | PyStr s => String.eqb s lit
  | _ => false
  end.

(** ** The world outside the function *)

(** What [requests.get] returns: only the two attributes the function reads. *)
Record response : Type := {
  status_code : Z;
  content : list Byte.byte
}.

(** How the disk treats [open(path, "wb")] followed by one [write(data)]. *)
Inductive disk_behaviour : Type :=
| DiskOk
| OpenRaises (e : exception)
| WriteRaises (e : exception) (written : nat).

Record environment : Type := {
  http_get : string -> exception + response;
  disk : string -> list Byte.byte -> disk_behaviour
}.

(** The calls that leave the process, in the order they are made. *)
Inductive event : Type :=
| Get (url : string)
| OpenWb (path : string)
| Print (line : string).

Record world : Type := {
  cwd : string;
  fs : gmap string (list Byte.byte);
  events : list event
}.

Definition log (ev : event) (w : world) : world :=
  {| cwd := cwd w; fs := fs w; events := events w ++ [ev] |}.

Definition store (path : string) (data : list Byte.byte) (w : world) : world :=
  {| cwd := cwd w; fs := <[path := data]> (fs w); events := events w |}.

(** ** A monad for Python statements: environment, state and exceptions *)

Definition M (A : Type) : Type := environment -> world -> result A * world.

Definition ret {A} (a : A) : M A := fun _ w => (Ok a, w).

Definition raise {A} (e : exception) : M A := fun _ w => (Raise e, w).

Definition bind {A B} (c : M A) (k : A -> M B) : M B :=
  fun env w =>
    match c env w with
    | (Ok a, w') => k a env w'
    | (Raise e, w') => (Raise e, w')
    end.

Definition lift {A} (r : result A) : M A := fun _ w => (r, w).

Declare Scope py_scope.
Delimit Scope py_scope with py.
Notation "x <- c ;; k" := (bind c (fun x => k))
  (at level 100, c at next level, right associativity) : py_scope.
Notation "c ;; k" := (bind c (fun _ => k))
  (at level 100, right associativity) : py_scope.
Local Open Scope py_scope.

(** [try: body  except AssertionError: handler] *)
Definition try_except_AssertionError {A} (body handler : M A) : M A :=
  fun env w =>
    match body env w with
    | (Raise e, w') => if is_AssertionError e then handler env w' else (Raise e, w')
    | done => done
    end.

(** Reading a local variable that no statement has bound yet. *)
Definition load_local {A} (v : option A) : M A :=
  match v with
  | Some a => ret a
  | None => raise UnboundLocalError
  end.

(** [assert b] *)
Definition assert_ (b : bool) : M unit :=
  if b then ret tt else raise AssertionError.

(** [requests.get(url)] *)
Definition requests_get (url : string) : M response :=
  fun env w =>
    match http_get env url with
    | inr r => (Ok r, log (Get url) w)
    | inl e => (Raise e, log (Get url) w)
    end.

(** [os.getcwd()] *)
Definition os_getcwd : M string := fun _ w => (Ok (cwd w), w).

(** [with open(path, "wb") as fh: fh.write(data)]: mode ["wb"] creates the
    file or truncates the one that is there. *)
Definition open_wb_write (path : string) (data : list Byte.byte) : M unit :=
  fun env w =>
    let w := log (OpenWb path) w in
    match disk env path data with
    | DiskOk => (Ok tt, store path data w)
    | OpenRaises e => (Raise e, w)
    | WriteRaises e k => (Raise e, store path (take k data) w)
    end.

(** [print(line)] *)
Definition print (line : string) : M unit :=
  fun _ w => (Ok tt, log (Print line) w).

(** ** [get_ligand_cif] *)

(** The [match ligand_type.value:] statement.  Its result is the binding of
    the local [ligand_dir] afterwards: no [case] matching leaves it unbound.
    Indexing the identifier is the one thing in it that can raise. *)
Definition match_value (ligand_id : string) (subject : pyvalue) : result (option string) :=
  if matches_literal subject "ccd" then
    match Str.getitem ligand_id 0 with
    | Ok shard => Ok (Some (PosixPath.join "ccd" [shard; ligand_id]))
    | Raise e => Raise e
    end
  else if matches_literal subject "prd" then
    match Str.getitem ligand_id (-1) with
    | Ok shard => Ok (Some (PosixPath.join "prd" [shard; ligand_id]))
    | Raise e => Raise e
    end
  else if matches_literal subject "clc" then
    match Str.getitem ligand_id (-1) with
    | Ok shard => Ok (Some (PosixPath.join "clc" [shard; ligand_id]))
    | Raise e => Raise e
    end
  else Ok None.

Definition diagnostic (ligand_id : string) (ligand_type : pyobject) : string :=
  "Couldn't find the file. Check if " +:+ ligand_id +:+ " & " +:+ format ligand_type
    +:+ " are valid, if so try again".

(** The function returns the path, or [None] when it falls off its end. *)
Definition get_ligand_cif (ligand_id : string) (ligand_type : pyobject) : M (option string) :=
  subject <- lift (getattr_value ligand_type) ;;
  ligand_dir <- lift (match_value ligand_id subject) ;;
  try_except_AssertionError
    (dir <- load_local ligand_dir ;;
     let ligand_cif_path := PosixPath.join PDBECHEM_URL [dir; ligand_id +:+ ".cif"] in
     response <- requests_get ligand_cif_path ;;
     assert_ (status_code response =? 200) ;;
     here <- os_getcwd ;;
     let ligand_cif_file := PosixPath.join here [ligand_id +:+ ".cif"] in
     open_wb_write ligand_cif_file (content response) ;;
     ret (Some ligand_cif_file))
    (print (diagnostic ligand_id ligand_type) ;;
     ret None).

(** ** Running the function on examples *)

Definition bytes_of (s : string) : list Byte.byte := String.list_byte_of_string s.

Definition empty_world (dir : string) : world :=
  {| cwd := dir; fs := ∅; events := [] |}.

(** A server that knows one URL, and a disk without faults. *)
Definition serving (url : string) (payload : list Byte.byte) : environment :=
  {| http_get := fun u =>
       if String.eqb u url then inr {| status_code := 200; content := payload |}
       else inr {| status_code := 404; content := [] |};
     disk := fun _ _ => DiskOk |}.

Definition HEM_url : string :=
  "https://ftp.ebi.ac.uk/pub/databases/msd/pdbechem_v2/ccd/H/HEM/HEM.cif".

(** ** The words of the specification *)

(** The shard of an identifier: its first character for CCD, its last
    character for PRD and CLC. *)
Definition spec_shard (t : ligandType) (id : string) : option ascii :=
  match t with
  | CCD => Str.first_char id
  | PRD | CLC => Str.last_char id
  end.

(** [<base-url>/<category>/<shard>/<identifier>/<identifier>.cif] *)
Definition spec_url (t : ligandType) (id : string) (shard : ascii) : string :=
  PDBECHEM_URL +:+ "/" +:+ value t +:+ "/" +:+ String shard "" +:+ "/" +:+ id
    +:+ "/" +:+ id +:+ ".cif".

(** A text names [needle] when [needle] occurs in it. *)
Definition mentions (text needle : string) : Prop :=
  exists before after, text = before +:+ needle +:+ after.

(** ** Observations on a run *)

(** The URL the function passes to [requests.get], when it gets that far:
    the attribute [value] exists, a [case] matches and the identifier can be
    indexed. *)
Definition requested_url (ligand_id : string) (ligand_type : pyobject) : option string :=
  match getattr_value ligand_type with
  | Ok subject =>
      match match_value ligand_id subject with
      | Ok (Some dir) => Some (PosixPath.join PDBECHEM_URL [dir; ligand_id +:+ ".cif"])
      | _ => None
      end
  | Raise _ => None
  end.

(** The path the function opens for writing. *)
Definition local_file (ligand_id : string) (w : world) : string :=
  PosixPath.join (cwd w) [ligand_id +:+ ".cif"].

(** A directory as the prefix of the paths of the files in it. *)
Definition directory_prefix (d : string) : string :=
  if Str.is_empty d || PosixPath.endswith_sep d then d else d +:+ "/".

(** The events a run added to the trace. *)
Definition emitted (w w' : world) : list event :=
  drop (length (events w)) (events w').

(** The URLs of the GET requests of a trace. *)
Definition gets (tr : list event) : list string :=
  flat_map (fun ev => match ev with Get u => [u] | _ => [] end) tr.

(** Whether a trace opens a file for writing: the function goes on to the
    write exactly when it took the retrieval for a success. *)
Definition opens_file (tr : list event) : bool :=
  existsb (fun ev => match ev with OpenWb _ => true | _ => false end) tr.

(** The lines a trace prints. *)
Definition printed (tr : list event) : list string :=
  flat_map (fun ev => match ev with Print l => [l] | _ => [] end) tr.

Definition disk_exception (b : disk_behaviour) : option exception :=
  match b with
  | DiskOk => None
  | OpenRaises e => Some e
  | WriteRaises e _ => Some e
  end.

(** What the [try] statement makes of an exception raised in its body. *)
Definition handled (ligand_id : string) (ligand_type : pyobject)
    (e : exception) (w : world) : result (option string) * world :=
  if is_AssertionError e
  then (Ok None, log (Print (diagnostic ligand_id ligand_type)) w)
  else (Raise e, w).

(** What the handler adds to the trace for an exception raised in the body. *)
Definition after_exception (ligand_id : string) (ligand_type : pyobject)
    (e : exception) : list event :=
  if is_AssertionError e then [Print (diagnostic ligand_id ligand_type)] else [].

(** The [try] statement once [ligand_dir] is bound, case by case on what the
    environment answers. [get_ligand_cif_eq] proves that the function runs
    like this. *)
Definition fetch (ligand_id : string) (ligand_type : pyobject) (dir : string)
    : M (option string) :=
  fun env w =>
    let url := PosixPath.join PDBECHEM_URL [dir; ligand_id +:+ ".cif"] in
    let w1 := log (Get url) w in
    match http_get env url with
    | inl e => handled ligand_id ligand_type e w1
    | inr r =>
        if status_code r =? 200 then
          let file := local_file ligand_id w in
          let w2 := log (OpenWb file) w1 in
          match disk env file (content r) with
          | DiskOk => (Ok (Some file), store file (content r) w2)
          | OpenRaises e => handled ligand_id ligand_type e w2
          | WriteRaises e k => handled ligand_id ligand_type e (store file (take k (content r)) w2)
          end
        else (Ok None, log (Print (diagnostic ligand_id ligand_type)) w1)
    end.

(** Environments for the examples: a network that is down, a disk that is
    full, and a library call that rejects a URL without a scheme. *)
Definition network_down : environment :=
  {| http_get := fun _ => inl (RequestException "Timeout");
     disk := fun _ _ => DiskOk |}.

Definition disk_full (url : string) (payload : list Byte.byte) : environment :=
  {| http_get := http_get (serving url payload);
     disk := fun _ _ => WriteRaises (OSError "OSError") 0 |}.

Definition rejecting : environment :=
  {| http_get := fun _ => inl (RequestException "MissingSchema");
     disk := fun _ _ => DiskOk |}.

(** Whether a string contains the separator.  An identifier without one
    names a plain entry of the working directory. *)
Fixpoint has_separator (s : string) : bool :=
  match s with
  | EmptyString => false
  | String c t => Ascii.eqb c PosixPath.sep || has_separator t
  end.

(** A mirror that answers every request with status 200 and the bytes of the
    URL as payload; a library that fails one of its own assertions; a disk
    whose write fails after [k] bytes. *)
Definition mirror : environment :=
  {| http_get := fun u => inr {| status_code := 200; content := bytes_of u |};
     disk := fun _ _ => DiskOk |}.

Definition asserting : environment :=
  {| http_get := fun _ => inl AssertionError;
     disk := fun _ _ => DiskOk |}.

Definition disk_failing_after (k : nat) (url : string) (payload : list Byte.byte)
    : environment :=
  {| http_get := http_get (serving url payload);
     disk := fun _ _ => WriteRaises (OSError "OSError") k |}.

(** * Properties *)

(** ** The function on the identifiers of the notebook *)

Example fetch_HEM :
  let '(out, w) := get_ligand_cif "HEM" (Member CCD) (serving HEM_url (bytes_of "data_HEM"))
                     (empty_world "/content") in
  out = Ok (Some "/content/HEM.cif")
  /\ fs w !! "/content/HEM.cif" = Some (bytes_of "data_HEM")
  /\ events w = [Get HEM_url; OpenWb "/content/HEM.cif"].
Proof. vm_compute. auto. Qed.

Example fetch_unknown :
  let '(out, w) := get_ligand_cif "ZZZZ999" (Member CCD) (serving HEM_url (bytes_of "data_HEM"))
                     (empty_world "/content") in
  out = Ok None
  /\ fs w = ∅
  /\ events w =
       [Get "https://ftp.ebi.ac.uk/pub/databases/msd/pdbechem_v2/ccd/Z/ZZZZ999/ZZZZ999.cif";
        Print "Couldn't find the file. Check if ZZZZ999 & ligandType.CCD are valid, if so try again"].
Proof. vm_compute. auto. Qed.

Example fetch_prd_url :
  events (snd (get_ligand_cif "PRD_000001" (Member PRD) (serving HEM_url []) (empty_world "/content")))
  = [Get "https://ftp.ebi.ac.uk/pub/databases/msd/pdbechem_v2/prd/1/PRD_000001/PRD_000001.cif";
     Print "Couldn't find the file. Check if PRD_000001 & ligandType.PRD are valid, if so try again"].
Proof. vm_compute. reflexivity. Qed.

(** ** Indexing and the first and last character *)

Section Indexing.

Implicit Types (s t : string) (c : ascii).

Lemma getitem_empty (i : Z) : Str.getitem "" i = Raise IndexError.
Proof.
  unfold Str.getitem, Str.len. change (Z.of_nat (String.length "")) with 0.
  destruct (i <? 0) eqn:Hi.
  - rewrite Z.add_0_r, Hi. reflexivity.
  - replace (0 <=? i) with true by (symmetry; apply Z.leb_le; apply Z.ltb_ge; exact Hi).
    rewrite Hi. reflexivity.
Qed.

Lemma getitem_first c t : Str.getitem (String c t) 0 = Ok (String c "").
Proof.
  unfold Str.getitem, Str.len. simpl String.length.
  replace (0 <? 0) with false by reflexivity. cbv zeta.
  replace (Z.of_nat (S (String.length t)) <=? 0) with false
    by (symmetry; apply Z.leb_gt; lia).
  reflexivity.
Qed.

Lemma last_char_cons c t :
  Str.last_char (String c t) = match Str.last_char t with Some d => Some d | None => Some c end.
Proof.
  destruct t as [|d t]; [reflexivity|].
  change (Str.last_char (String c (String d t))) with (Str.last_char (String d t)).
  destruct (Str.last_char (String d t)) eqn:E; [reflexivity|].
  exfalso. clear c. revert d E. induction t as [|e t IH]; intros d E; [discriminate|].
  apply (IH e). exact E.
Qed.

Lemma last_char_None s : Str.last_char s = None -> s = "".
Proof.
  destruct s as [|c t]; [reflexivity|]. rewrite last_char_cons.
  destruct (Str.last_char t); discriminate.
Qed.

Lemma last_char_some s : s <> "" -> exists c, Str.last_char s = Some c.
Proof.
  intros Hs. destruct (Str.last_char s) as [c|] eqn:E; [eauto|].
  apply last_char_None in E. contradiction.
Qed.

Lemma get_last s c :
  Str.last_char s = Some c -> String.get (Nat.pred (String.length s)) s = Some c.
Proof.
  induction s as [|d t IH]; [discriminate|].
  rewrite last_char_cons. intros E.
  destruct t as [|e t']; [simpl in *; exact E|].
  destruct (Str.last_char (String e t')) as [x|] eqn:El.
  - inversion E; subst x. specialize (IH eq_refl). simpl in *. exact IH.
  - apply last_char_None in El. discriminate.
Qed.

Lemma getitem_last s c : Str.last_char s = Some c -> Str.getitem s (-1) = Ok (String c "").
Proof.
  intros E. pose proof (get_last s c E) as G.
  assert (Hlen : (0 < String.length s)%nat).
  { destruct s; [discriminate | simpl; lia]. }
  unfold Str.getitem, Str.len.
  replace (-1 <? 0) with true by reflexivity. cbv zeta.
  replace (-1 + Z.of_nat (String.length s) <? 0) with false
    by (symmetry; apply Z.ltb_ge; lia).
  replace (Z.of_nat (String.length s) <=? -1 + Z.of_nat (String.length s)) with false
    by (symmetry; apply Z.leb_gt; lia).
  simpl orb. cbv iota.
  replace (Z.to_nat (-1 + Z.of_nat (String.length s))) with (Nat.pred (String.length s)) by lia.
  rewrite G. reflexivity.
Qed.

Lemma last_char_app s t : t <> "" -> Str.last_char (s +:+ t) = Str.last_char t.
Proof.
  intros Ht. induction s as [|c s IH]; [reflexivity|].
  change (String c s +:+ t) with (String c (s +:+ t)).
  rewrite last_char_cons, IH.
  destruct (last_char_some t Ht) as [d ->]. reflexivity.
Qed.

Lemma first_char_app s t : s <> "" -> Str.first_char (s +:+ t) = Str.first_char s.
Proof. destruct s; [contradiction | reflexivity]. Qed.

Lemma app_assoc_str s t u : (s +:+ t) +:+ u = s +:+ t +:+ u.
Proof.
  induction s as [|c s IH]; [reflexivity|].
  change (String c ((s +:+ t) +:+ u) = String c (s +:+ t +:+ u)).
  rewrite IH. reflexivity.
Qed.

Lemma app_nonempty_r s t : t <> "" -> s +:+ t <> "".
Proof. intros Ht. destruct s; [exact Ht | discriminate]. Qed.

End Indexing.

(** ** Joining path components *)

Section Joining.

Import PosixPath.
Implicit Types (s t path b : string).

Lemma startswith_sep_app s t : s <> "" -> startswith_sep (s +:+ t) = startswith_sep s.
Proof. intros Hs. unfold startswith_sep. now rewrite first_char_app. Qed.

Lemma endswith_sep_app s t : t <> "" -> endswith_sep (s +:+ t) = endswith_sep t.
Proof. intros Ht. unfold endswith_sep. now rewrite last_char_app. Qed.

Lemma join_component_absolute path b : startswith_sep b = true -> join_component path b = b.
Proof. intros Hb. unfold join_component. now rewrite Hb. Qed.

Lemma join_component_relative path b :
  startswith_sep b = false -> path <> "" -> endswith_sep path = false ->
  join_component path b = path +:+ "/" +:+ b.
Proof.
  intros Hb Hp He. unfold join_component. rewrite Hb, He.
  destruct path; [contradiction | reflexivity].
Qed.

Lemma join_component_after_sep path b :
  startswith_sep b = false -> endswith_sep path = true ->
  join_component path b = path +:+ b.
Proof.
  intros Hb He. unfold join_component. rewrite Hb, He, orb_true_r. reflexivity.
Qed.

End Joining.

(** ** The function, case by case *)

Section Running.

Variables (ligand_id : string) (ligand_type : pyobject).
Variables (env : environment) (w : world).

Lemma get_ligand_cif_eq :
  get_ligand_cif ligand_id ligand_type env w =
  match getattr_value ligand_type with
  | Raise e => (Raise e, w)
  | Ok subject =>
      match match_value ligand_id subject with
      | Raise e => (Raise e, w)
      | Ok None => (Raise UnboundLocalError, w)
      | Ok (Some dir) => fetch ligand_id ligand_type dir env w
      end
  end.
Proof.
  unfold get_ligand_cif, bind, lift.
  destruct (getattr_value ligand_type) as [subject|e]; [|reflexivity].
  destruct (match_value ligand_id subject) as [[dir|]|e]; [|reflexivity|reflexivity].
  unfold try_except_AssertionError, fetch, handled, bind, load_local, ret,
    requests_get, assert_, os_getcwd, open_wb_write, print, local_file.
  destruct (http_get env _) as [e|r]; cbn.
  - destruct (is_AssertionError e); reflexivity.
  - destruct (status_code r =? 200); cbn; [|reflexivity].
    destruct (disk env _ _) as [|e|e k]; cbn;
      [reflexivity | destruct (is_AssertionError e); reflexivity ..].
Qed.

(** Without a URL the function raises and leaves the world alone. *)
Lemma no_url_raises :
  requested_url ligand_id ligand_type = None ->
  exists e, get_ligand_cif ligand_id ligand_type env w = (Raise e, w).
Proof.
  rewrite get_ligand_cif_eq. unfold requested_url.
  destruct (getattr_value ligand_type) as [subject|e]; [|eauto].
  destruct (match_value ligand_id subject) as [[dir|]|e]; [discriminate|eauto..].
Qed.

Lemma with_url_fetches (url : string) :
  requested_url ligand_id ligand_type = Some url ->
  exists dir, url = PosixPath.join PDBECHEM_URL [dir; ligand_id +:+ ".cif"]
    /\ get_ligand_cif ligand_id ligand_type env w = fetch ligand_id ligand_type dir env w.
Proof.
  rewrite get_ligand_cif_eq. unfold requested_url.
  destruct (getattr_value ligand_type) as [subject|e]; [|discriminate].
  destruct (match_value ligand_id subject) as [[dir|]|e]; [|discriminate..].
  intros [= <-]. eauto.
Qed.

End Running.

(** The trace only grows, and [emitted] is what was added. *)
Lemma emitted_app (w w' : world) (tr : list event) :
  events w' = events w ++ tr -> emitted w w' = tr.
Proof. intros E. unfold emitted. rewrite E. apply drop_app_length. Qed.

Lemma emitted_unchanged (w : world) : emitted w w = [].
Proof. apply emitted_app. now rewrite app_nil_r. Qed.

(** ** The shard and the URL *)

Section Locating.

Import PosixPath.
Variables (id : string) (t : ligandType).
Hypothesis id_nonempty : id <> "".

(** Indexing a non-empty identifier gives the character the specification
    names. *)
Lemma shard_indexed :
  exists c, spec_shard t id = Some c
    /\ Str.getitem id (match t with CCD => 0 | PRD | CLC => -1 end) = Ok (String c "").
Proof using id_nonempty.
  destruct t; simpl spec_shard.
  - destruct id as [|c rest]; [contradiction|]. exists c. split; [reflexivity|].
    apply getitem_first.
  - destruct (last_char_some id id_nonempty) as [c Hc]. exists c.
    split; [exact Hc | now apply getitem_last].
  - destruct (last_char_some id id_nonempty) as [c Hc]. exists c.
    split; [exact Hc | now apply getitem_last].
Qed.

Lemma match_value_member (c : ascii) :
  spec_shard t id = Some c ->
  match_value id (PyStr (value t)) = Ok (Some (join (value t) [String c ""; id])).
Proof using id_nonempty.
  intros Hc. destruct shard_indexed as (c' & Hc' & Hget).
  rewrite Hc in Hc'. injection Hc' as <-.
  destruct t; unfold match_value; simpl matches_literal; cbv iota;
    rewrite Hget; reflexivity.
Qed.

Lemma requested_url_member (c : ascii) :
  spec_shard t id = Some c ->
  requested_url id (Member t)
  = Some (join PDBECHEM_URL [join (value t) [String c ""; id]; id +:+ ".cif"]).
Proof using id_nonempty.
  intros Hc. unfold requested_url, getattr_value.
  rewrite (match_value_member c Hc). reflexivity.
Qed.

(** When the identifier neither starts nor ends with the separator, no
    component is absolute and none ends a path with a separator: [join]
    puts one separator between any two of them. *)
Hypothesis no_leading_sep : startswith_sep id = false.
Hypothesis no_trailing_sep : endswith_sep id = false.

Lemma shard_not_sep (c : ascii) : spec_shard t id = Some c -> Ascii.eqb c sep = false.
Proof using no_leading_sep no_trailing_sep.
  intros Hc. destruct t; simpl in Hc.
  - unfold startswith_sep in no_leading_sep. now rewrite Hc in no_leading_sep.
  - unfold endswith_sep in no_trailing_sep. now rewrite Hc in no_trailing_sep.
  - unfold endswith_sep in no_trailing_sep. now rewrite Hc in no_trailing_sep.
Qed.

Lemma value_plain : value t <> "" /\ startswith_sep (value t) = false
                    /\ endswith_sep (value t) = false.
Proof. destruct t; (split; [discriminate | split; reflexivity]). Qed.

Lemma ligand_dir_segments (c : ascii) :
  spec_shard t id = Some c ->
  join (value t) [String c ""; id] = value t +:+ "/" +:+ String c "" +:+ "/" +:+ id.
Proof using id_nonempty no_leading_sep no_trailing_sep.
  intros Hc. pose proof (shard_not_sep c Hc) as Hsep.
  destruct value_plain as (Hv & _ & Hve).
  unfold join. simpl fold_left.
  rewrite (join_component_relative (value t) (String c "")); [|exact Hsep|exact Hv|exact Hve].
  rewrite join_component_relative; [now rewrite !app_assoc_str|exact no_leading_sep| |].
  - now apply app_nonempty_r.
  - rewrite !endswith_sep_app by discriminate. exact Hsep.
Qed.

Lemma url_segments (c : ascii) :
  spec_shard t id = Some c ->
  join PDBECHEM_URL [join (value t) [String c ""; id]; id +:+ ".cif"] = spec_url t id c.
Proof using id_nonempty no_leading_sep no_trailing_sep.
  intros Hc. rewrite (ligand_dir_segments c Hc).
  destruct value_plain as (Hv & Hvs & _).
  unfold join. simpl fold_left.
  rewrite (join_component_relative PDBECHEM_URL);
    [|now rewrite startswith_sep_app|unfold PDBECHEM_URL; discriminate|reflexivity].
  rewrite join_component_relative.
  - unfold spec_url. now rewrite !app_assoc_str.
  - now rewrite startswith_sep_app.
  - now apply app_nonempty_r.
  - rewrite !endswith_sep_app; try exact no_trailing_sep;
      repeat apply app_nonempty_r; exact id_nonempty.
Qed.

End Locating.

(** ** What a fetch leaves in the trace and in the files *)

Lemma events_log (ev : event) (w : world) : events (log ev w) = events w ++ [ev].
Proof. reflexivity. Qed.

Lemma events_store (path : string) (data : list Byte.byte) (w : world) :
  events (store path data w) = events w.
Proof. reflexivity. Qed.

(** Bring the trace of a world built by [log] and [store] into the form
    [events w ++ tr] and read [emitted] off it. *)
Ltac read_trace :=
  apply emitted_app;
  rewrite ?events_store, ?events_log, ?events_store, ?events_log, ?events_store, ?events_log;
  rewrite <- ?app_assoc; reflexivity.

Section Fetching.

Variables (ligand_id : string) (ligand_type : pyobject) (dir : string).
Variables (env : environment) (w : world).

Local Abbreviation url := (PosixPath.join PDBECHEM_URL [dir; ligand_id +:+ ".cif"]).
Local Abbreviation file := (local_file ligand_id w).
Local Abbreviation line := (diagnostic ligand_id ligand_type).

Lemma handled_emitted (e : exception) (w1 : world) (tr : list event) :
  emitted w w1 = tr -> events w1 = events w ++ tr ->
  emitted w (snd (handled ligand_id ligand_type e w1)) = tr ++ after_exception ligand_id ligand_type e.
Proof.
  intros _ E. unfold handled, after_exception.
  destruct (is_AssertionError e); simpl snd.
  - apply emitted_app. rewrite events_log, E, <- app_assoc. reflexivity.
  - apply emitted_app. rewrite E, app_nil_r. reflexivity.
Qed.

Lemma fetch_emitted :
  emitted w (snd (fetch ligand_id ligand_type dir env w)) =
  Get url ::
    match http_get env url with
    | inl e => after_exception ligand_id ligand_type e
    | inr r =>
        if status_code r =? 200 then
          OpenWb file ::
            match disk_exception (disk env file (content r)) with
            | Some e => after_exception ligand_id ligand_type e
            | None => []
            end
        else [Print line]
    end.
Proof.
  unfold fetch. cbv zeta.
  destruct (http_get env url) as [e|r].
  - apply (handled_emitted e _ [Get url]); [read_trace | reflexivity].
  - destruct (status_code r =? 200); [|simpl snd; read_trace].
    destruct (disk env file (content r)) as [|e|e k]; simpl disk_exception.
    + simpl snd. read_trace.
    + apply (handled_emitted e _ [Get url; OpenWb file]); [read_trace|].
      rewrite !events_log, <- app_assoc. reflexivity.
    + apply (handled_emitted e _ [Get url; OpenWb file]); [read_trace|].
      rewrite events_store, !events_log, <- app_assoc. reflexivity.
Qed.

Lemma gets_after_exception (e : exception) : gets (after_exception ligand_id ligand_type e) = [].
Proof. unfold after_exception. destruct (is_AssertionError e); reflexivity. Qed.

(** One call of [requests.get], whatever comes back. *)
Lemma fetch_gets : gets (emitted w (snd (fetch ligand_id ligand_type dir env w))) = [url].
Proof.
  rewrite fetch_emitted.
  change (gets (Get url :: ?tr)) with (url :: gets tr). f_equal.
  destruct (http_get env url) as [e|r]; [apply gets_after_exception|].
  destruct (status_code r =? 200); [|reflexivity].
  change (gets (OpenWb file :: ?tr)) with (gets tr).
  destruct (disk_exception _); [apply gets_after_exception | reflexivity].
Qed.

Lemma fetch_cwd : cwd (snd (fetch ligand_id ligand_type dir env w)) = cwd w.
Proof.
  unfold fetch, handled. cbv zeta.
  destruct (http_get env _) as [e|r]; [destruct (is_AssertionError e); reflexivity|].
  destruct (status_code r =? 200); [|reflexivity].
  destruct (disk env _ _) as [|e|e k]; [reflexivity|destruct (is_AssertionError e); reflexivity..].
Qed.

(** A call that returns a path got status 200 and a disk without fault,
    and left the payload at that path. *)
Lemma fetch_returns_path (path : string) (w' : world) :
  fetch ligand_id ligand_type dir env w = (Ok (Some path), w') ->
  exists r, http_get env url = inr r /\ status_code r = 200
    /\ disk env file (content r) = DiskOk
    /\ path = file
    /\ w' = store file (content r) (log (OpenWb file) (log (Get url) w)).
Proof.
  unfold fetch, handled. cbv zeta.
  destruct (http_get env url) as [e|r].
  - destruct (is_AssertionError e); discriminate.
  - destruct (status_code r =? 200) eqn:Hs; [|discriminate].
    apply Z.eqb_eq in Hs.
    destruct (disk env file (content r)) as [|e|e k] eqn:Hd.
    + intros [= <- <-]. exists r. auto.
    + destruct (is_AssertionError e); discriminate.
    + destruct (is_AssertionError e); discriminate.
Qed.

End Fetching.

(** ** Runs with and without a URL *)

Section Requesting.

Variables (ligand_id : string) (ligand_type : pyobject).
Variables (env : environment) (w : world).

Lemma run_gets (url : string) :
  requested_url ligand_id ligand_type = Some url ->
  gets (emitted w (snd (get_ligand_cif ligand_id ligand_type env w))) = [url].
Proof.
  intros Hu. destruct (with_url_fetches _ _ env w url Hu) as (dir & -> & ->).
  apply fetch_gets.
Qed.

Lemma run_cwd : cwd (snd (get_ligand_cif ligand_id ligand_type env w)) = cwd w.
Proof.
  destruct (requested_url ligand_id ligand_type) as [url|] eqn:Hu.
  - destruct (with_url_fetches _ _ env w url Hu) as (dir & _ & ->). apply fetch_cwd.
  - destruct (no_url_raises _ _ env w Hu) as (e & ->). reflexivity.
Qed.

(** A call that returns a path. *)
Lemma run_returns_path (path : string) (w' : world) :
  get_ligand_cif ligand_id ligand_type env w = (Ok (Some path), w') ->
  exists url r, requested_url ligand_id ligand_type = Some url
    /\ http_get env url = inr r /\ status_code r = 200
    /\ disk env (local_file ligand_id w) (content r) = DiskOk
    /\ path = local_file ligand_id w
    /\ w' = store path (content r) (log (OpenWb path) (log (Get url) w)).
Proof.
  destruct (requested_url ligand_id ligand_type) as [url|] eqn:Hu.
  - destruct (with_url_fetches _ _ env w url Hu) as (dir & -> & ->). intros Hrun.
    destruct (fetch_returns_path _ _ _ _ _ _ _ Hrun) as (r & Hr & Hs & Hd & -> & ->).
    exists (PosixPath.join PDBECHEM_URL [dir; ligand_id +:+ ".cif"]), r.
    repeat split; assumption || reflexivity.
  - destruct (no_url_raises _ _ env w Hu) as (e & ->). discriminate.
Qed.

End Requesting.

(** An identifier that starts with the separator is an absolute component:
    [join] drops the base URL, and what is requested has no scheme. *)
Lemma leading_sep_drops_base (id : string) (ty : pyobject) (url : string) :
  PosixPath.startswith_sep id = true ->
  requested_url id ty = Some url -> url = id +:+ ".cif".
Proof.
  intros Hs. unfold requested_url.
  destruct (getattr_value ty) as [v|]; [|discriminate].
  destruct (match_value id v) as [[dir|]|]; [|discriminate..].
  intros [= <-]. unfold PosixPath.join. simpl fold_left.
  apply join_component_absolute.
  rewrite startswith_sep_app; [exact Hs|]. now destruct id.
Qed.

(** ** The claims about the shard and the URL *)

(** C1. For a non-empty identifier, the shard that [get_ligand_cif] derives
    is the first character of the identifier for CCD and its last character
    for PRD and CLC: the index expression evaluates to that very character
    (nothing is done to its case), and it is the middle component of the
    directory the [match] statement binds. *)
Theorem shard_is_first_or_last_character (id : string) (t : ligandType) :
  id <> "" ->
  exists c : ascii,
    spec_shard t id = Some c
    /\ Str.getitem id (match t with CCD => 0 | PRD | CLC => -1 end) = Ok (String c "")
    /\ match_value id (PyStr (value t))
       = Ok (Some (PosixPath.join (value t) [String c ""; id])).
Proof.
  intros Hid. destruct (shard_indexed id t Hid) as (c & Hc & Hget).
  exists c. split; [exact Hc|]. split; [exact Hget|].
  now apply match_value_member.
Qed.

Lemma shard_of_HEM_and_PRD_000001 :
  ("HEM" <> ""
   /\ exists c, spec_shard CCD "HEM" = Some c
        /\ Str.getitem "HEM" 0 = Ok (String c "")
        /\ match_value "HEM" (PyStr "ccd") = Ok (Some (PosixPath.join "ccd" [String c ""; "HEM"])))
  /\ ("PRD_000001" <> ""
      /\ exists c, spec_shard PRD "PRD_000001" = Some c
           /\ Str.getitem "PRD_000001" (-1) = Ok (String c "")
           /\ match_value "PRD_000001" (PyStr "prd")
              = Ok (Some (PosixPath.join "prd" [String c ""; "PRD_000001"]))).
Proof.
  split; (split; [discriminate|]).
  - apply (shard_is_first_or_last_character "HEM" CCD). discriminate.
  - apply (shard_is_first_or_last_character "PRD_000001" PRD). discriminate.
Defined.

(** C2, as amended. For a non-empty identifier that neither starts nor ends
    with ["/"] and each of the three categories, the URL [get_ligand_cif]
    requests is the base URL followed by the segments
    [<category>/<shard>/<id>/<id>.cif], whatever the environment answers. *)
Theorem url_is_base_category_shard_identifier
    (id : string) (t : ligandType) (env : environment) (w : world) :
  id <> "" ->
  PosixPath.startswith_sep id = false ->
  PosixPath.endswith_sep id = false ->
  exists c : ascii,
    spec_shard t id = Some c
    /\ requested_url id (Member t) = Some (spec_url t id c)
    /\ gets (emitted w (snd (get_ligand_cif id (Member t) env w))) = [spec_url t id c].
Proof.
  intros Hid Hs He. destruct (shard_indexed id t Hid) as (c & Hc & _).
  exists c. split; [exact Hc|].
  assert (Hu : requested_url id (Member t) = Some (spec_url t id c)).
  { rewrite (requested_url_member id t Hid c Hc). f_equal. now apply url_segments. }
  split; [exact Hu|]. now apply run_gets.
Qed.

Lemma url_of_HEM :
  "HEM" <> "" /\ PosixPath.startswith_sep "HEM" = false /\ PosixPath.endswith_sep "HEM" = false
  /\ exists c, spec_shard CCD "HEM" = Some c
       /\ requested_url "HEM" (Member CCD) = Some (spec_url CCD "HEM" c)
       /\ gets (emitted (empty_world "/content")
                  (snd (get_ligand_cif "HEM" (Member CCD) network_down (empty_world "/content"))))
          = [spec_url CCD "HEM" c].
Proof.
  split; [discriminate|]. split; [reflexivity|]. split; [reflexivity|].
  apply (url_is_base_category_shard_identifier "HEM" CCD network_down (empty_world "/content"));
    [discriminate | reflexivity | reflexivity].
Defined.

(** C2, as first stated, fails for the identifier ["/x"]: its shard ["/"] and
    the identifier itself are absolute components, so [os.path.join] drops
    everything before them and the function requests ["/x.cif"]. *)
Lemma url_of_identifier_with_leading_separator :
  "/x" <> ""
  /\ gets (emitted (empty_world "/content")
             (snd (get_ligand_cif "/x" (Member CCD) rejecting (empty_world "/content"))))
     = ["/x.cif"]
  /\ ~ (exists c, spec_shard CCD "/x" = Some c
          /\ gets (emitted (empty_world "/content")
                     (snd (get_ligand_cif "/x" (Member CCD) rejecting (empty_world "/content"))))
             = [spec_url CCD "/x" c]).
Proof.
  split; [discriminate|]. split; [vm_compute; reflexivity|].
  intros (c & Hc & Hurl). vm_compute in Hc. injection Hc as <-.
  vm_compute in Hurl. discriminate.
Qed.

(** A separator at the end is not doubled either. *)
Example url_of_identifier_with_trailing_separator :
  requested_url "a/" (Member CCD)
  = Some "https://ftp.ebi.ac.uk/pub/databases/msd/pdbechem_v2/ccd/a/a/a/.cif"
  /\ spec_url CCD "a/" "a"
     = "https://ftp.ebi.ac.uk/pub/databases/msd/pdbechem_v2/ccd/a/a//a/.cif".
Proof. split; vm_compute; reflexivity. Qed.

(** ** The claims about one fetch *)

Lemma local_file_in_cwd (id : string) (w : world) :
  PosixPath.startswith_sep id = false ->
  local_file id w = directory_prefix (cwd w) +:+ id +:+ ".cif".
Proof.
  intros Hs. unfold local_file, PosixPath.join, directory_prefix. simpl fold_left.
  assert (Hb : PosixPath.startswith_sep (id +:+ ".cif") = false).
  { destruct id; [reflexivity|]. rewrite startswith_sep_app; [exact Hs | discriminate]. }
  unfold PosixPath.join_component. rewrite Hb.
  destruct (Str.is_empty (cwd w) || PosixPath.endswith_sep (cwd w)); [reflexivity|].
  now rewrite app_assoc_str.
Qed.

(** C3. When the function gets a response, it has called [requests.get]
    exactly once, and it takes the retrieval for a success (it goes on to
    open the local file) if and only if the status code is 200; with any
    other status it reports the failure and returns nothing. *)
Theorem success_iff_status_200
    (id : string) (ty : pyobject) (env : environment) (w : world)
    (url : string) (r : response) (out : result (option string)) (w' : world) :
  requested_url id ty = Some url ->
  http_get env url = inr r ->
  get_ligand_cif id ty env w = (out, w') ->
  gets (emitted w w') = [url]
  /\ (opens_file (emitted w w') = true <-> status_code r = 200)
  /\ (status_code r <> 200 ->
      out = Ok None /\ emitted w w' = [Get url; Print (diagnostic id ty)] /\ fs w' = fs w).
Proof.
  intros Hu Hr Hrun.
  pose proof (run_gets id ty env w url Hu) as Hgets. rewrite Hrun in Hgets. simpl snd in Hgets.
  split; [exact Hgets|].
  destruct (with_url_fetches id ty env w url Hu) as (dir & Hurl & Hfetch).
  rewrite Hfetch in Hrun.
  pose proof (fetch_emitted id ty dir env w) as Htr.
  rewrite Hrun, <- Hurl, Hr in Htr. simpl snd in Htr.
  destruct (status_code r =? 200) eqn:Hs.
  - apply Z.eqb_eq in Hs. split.
    + rewrite Htr. split; [intros _; exact Hs | reflexivity].
    + intros Hne. contradiction.
  - apply Z.eqb_neq in Hs. split.
    + rewrite Htr. split; [discriminate | contradiction].
    + intros _. split; [|split; [exact Htr|]].
      * unfold fetch in Hrun. cbv zeta in Hrun. rewrite <- Hurl, Hr in Hrun.
        apply Z.eqb_neq in Hs. rewrite Hs in Hrun. now injection Hrun as <- <-.
      * unfold fetch in Hrun. cbv zeta in Hrun. rewrite <- Hurl, Hr in Hrun.
        apply Z.eqb_neq in Hs. rewrite Hs in Hrun. now injection Hrun as <- <-.
Qed.

Lemma status_of_HEM_and_of_ZZZZ999 :
  let env := serving HEM_url (bytes_of "data_HEM") in
  let w := empty_world "/content" in
  let claim (id : string) (url : string) (status : Z) :=
    gets (emitted w (snd (get_ligand_cif id (Member CCD) env w))) = [url]
    /\ (opens_file (emitted w (snd (get_ligand_cif id (Member CCD) env w))) = true
        <-> status = 200)
    /\ (status <> 200 ->
        fst (get_ligand_cif id (Member CCD) env w) = Ok None
        /\ emitted w (snd (get_ligand_cif id (Member CCD) env w))
           = [Get url; Print (diagnostic id (Member CCD))]
        /\ fs (snd (get_ligand_cif id (Member CCD) env w)) = fs w) in
  claim "HEM" HEM_url 200
  /\ claim "ZZZZ999"
       "https://ftp.ebi.ac.uk/pub/databases/msd/pdbechem_v2/ccd/Z/ZZZZ999/ZZZZ999.cif" 404.
Proof.
  intros env w claim. split.
  - apply (success_iff_status_200 "HEM" (Member CCD) env w HEM_url
             {| status_code := 200; content := bytes_of "data_HEM" |});
      vm_compute; reflexivity.
  - apply (success_iff_status_200 "ZZZZ999" (Member CCD) env w _
             {| status_code := 404; content := [] |});
      vm_compute; reflexivity.
Defined.

(** C4. On status 200, with a disk that takes the write, the function stores
    the whole payload, byte for byte, in the file [<identifier>.cif] of the
    current working directory and returns the path of that file. *)
Theorem success_writes_payload
    (id : string) (ty : pyobject) (env : environment) (w : world)
    (url : string) (r : response) :
  requested_url id ty = Some url ->
  http_get env url = inr r ->
  status_code r = 200 ->
  disk env (local_file id w) (content r) = DiskOk ->
  exists w' : world,
    get_ligand_cif id ty env w = (Ok (Some (local_file id w)), w')
    /\ fs w' = <[local_file id w := content r]> (fs w)
    /\ (exists data, fs w' !! local_file id w = Some data
          /\ data = content r /\ length data = length (content r))
    /\ emitted w w' = [Get url; OpenWb (local_file id w)]
    /\ (PosixPath.startswith_sep id = false ->
        local_file id w = directory_prefix (cwd w) +:+ id +:+ ".cif").
Proof.
  intros Hu Hr Hs Hd.
  destruct (with_url_fetches id ty env w url Hu) as (dir & Hurl & Hfetch).
  exists (store (local_file id w) (content r)
            (log (OpenWb (local_file id w)) (log (Get url) w))).
  split.
  { rewrite Hfetch. unfold fetch. cbv zeta. rewrite <- Hurl, Hr.
    apply Z.eqb_eq in Hs. rewrite Hs, Hd. reflexivity. }
  split; [reflexivity|]. split.
  { exists (content r). split; [apply lookup_insert_eq | split; reflexivity]. }
  split; [read_trace | apply local_file_in_cwd].
Qed.

Lemma HEM_is_written :
  let env := serving HEM_url (bytes_of "data_HEM") in
  let w := empty_world "/content" in
  let r := {| status_code := 200; content := bytes_of "data_HEM" |} in
  exists w' : world,
    get_ligand_cif "HEM" (Member CCD) env w = (Ok (Some (local_file "HEM" w)), w')
    /\ fs w' = <[local_file "HEM" w := content r]> (fs w)
    /\ (exists data, fs w' !! local_file "HEM" w = Some data
          /\ data = content r /\ length data = length (content r))
    /\ emitted w w' = [Get HEM_url; OpenWb (local_file "HEM" w)]
    /\ (PosixPath.startswith_sep "HEM" = false ->
        local_file "HEM" w = directory_prefix (cwd w) +:+ "HEM" +:+ ".cif").
Proof.
  intros env w r.
  apply (success_writes_payload "HEM" (Member CCD) env w HEM_url r);
    vm_compute; reflexivity.
Defined.

Lemma diagnostic_mentions (id : string) (ty : pyobject) :
  mentions (diagnostic id ty) id /\ mentions (diagnostic id ty) (format ty).
Proof.
  split.
  - exists "Couldn't find the file. Check if ",
      (" & " +:+ format ty +:+ " are valid, if so try again"). reflexivity.
  - exists ("Couldn't find the file. Check if " +:+ id +:+ " & "),
      " are valid, if so try again".
    unfold diagnostic. now rewrite !app_assoc_str.
Qed.

(** C5. On a status other than 200 the function creates no file, prints one
    diagnostic line that names the identifier and the category, and returns
    [None]: no path, no error value, no exception. *)
Theorem failure_is_reported_and_suppressed
    (id : string) (ty : pyobject) (env : environment) (w : world)
    (url : string) (r : response) :
  requested_url id ty = Some url ->
  http_get env url = inr r ->
  status_code r <> 200 ->
  exists w' : world,
    get_ligand_cif id ty env w = (Ok None, w')
    /\ fs w' = fs w
    /\ emitted w w' = [Get url; Print (diagnostic id ty)]
    /\ mentions (diagnostic id ty) id
    /\ mentions (diagnostic id ty) (format ty).
Proof.
  intros Hu Hr Hs.
  destruct (with_url_fetches id ty env w url Hu) as (dir & Hurl & Hfetch).
  exists (log (Print (diagnostic id ty)) (log (Get url) w)).
  split.
  { rewrite Hfetch. unfold fetch. cbv zeta. rewrite <- Hurl, Hr.
    apply Z.eqb_neq in Hs. rewrite Hs. reflexivity. }
  split; [reflexivity|]. split; [read_trace|]. apply diagnostic_mentions.
Qed.

Lemma ZZZZ999_is_reported :
  let env := serving HEM_url (bytes_of "data_HEM") in
  let w := empty_world "/content" in
  let url := "https://ftp.ebi.ac.uk/pub/databases/msd/pdbechem_v2/ccd/Z/ZZZZ999/ZZZZ999.cif" in
  exists w' : world,
    get_ligand_cif "ZZZZ999" (Member CCD) env w = (Ok None, w')
    /\ fs w' = fs w
    /\ emitted w w' = [Get url; Print (diagnostic "ZZZZ999" (Member CCD))]
    /\ mentions (diagnostic "ZZZZ999" (Member CCD)) "ZZZZ999"
    /\ mentions (diagnostic "ZZZZ999" (Member CCD)) (format (Member CCD)).
Proof.
  intros env w url.
  apply (failure_is_reported_and_suppressed "ZZZZ999" (Member CCD) env w url
           {| status_code := 404; content := [] |});
    [vm_compute; reflexivity | vm_compute; reflexivity | discriminate].
Defined.

(** What the diagnostic says for a member of the enumeration. *)
Example diagnostic_of_ZZZZ999 :
  diagnostic "ZZZZ999" (Member CCD)
  = "Couldn't find the file. Check if ZZZZ999 & ligandType.CCD are valid, if so try again".
Proof. reflexivity. Qed.

(** ** The claims about calls that never reach the network *)

Lemma matches_literal_value (v : pyvalue) (t : ligandType) :
  matches_literal v (value t) = true -> v = PyStr (value t).
Proof.
  destruct v as [s| |]; simpl; [|discriminate..].
  intros H. apply String.eqb_eq in H. now subst.
Qed.

(** C6. When the [value] of the category argument is none of ["ccd"],
    ["prd"], ["clc"] (or the argument has no such attribute), the call raises
    one fixed exception, the same in every environment and world; it leaves
    the world as it found it, so no request is made, and no URL is
    assembled. *)
Theorem unknown_category_fails_before_network (id : string) (ty : pyobject) :
  (forall t : ligandType, getattr_value ty <> Ok (PyStr (value t))) ->
  requested_url id ty = None
  /\ exists e : exception,
       (e = AttributeError \/ e = UnboundLocalError)
       /\ forall (env : environment) (w : world),
            get_ligand_cif id ty env w = (Raise e, w)
            /\ gets (emitted w (snd (get_ligand_cif id ty env w))) = [].
Proof.
  intros Hty.
  assert (Hcases : getattr_value ty = Raise AttributeError
                   \/ exists v, getattr_value ty = Ok v /\ match_value id v = Ok None).
  { destruct (getattr_value ty) as [v|e] eqn:Hv.
    - right. exists v. split; [reflexivity|]. unfold match_value.
      destruct (matches_literal v "ccd") eqn:H1.
      { apply (matches_literal_value v CCD) in H1. subst v. now destruct (Hty CCD). }
      destruct (matches_literal v "prd") eqn:H2.
      { apply (matches_literal_value v PRD) in H2. subst v. now destruct (Hty PRD). }
      destruct (matches_literal v "clc") eqn:H3.
      { apply (matches_literal_value v CLC) in H3. subst v. now destruct (Hty CLC). }
      reflexivity.
    - left. destruct ty as [t|[v|] s]; simpl in Hv; try discriminate. now symmetry. }
  destruct Hcases as [Hattr | (v & Hv & Hm)].
  - split; [unfold requested_url; now rewrite Hattr|].
    exists AttributeError. split; [now left|]. intros env w.
    assert (Hrun : get_ligand_cif id ty env w = (Raise AttributeError, w)).
    { rewrite get_ligand_cif_eq, Hattr. reflexivity. }
    split; [exact Hrun|]. rewrite Hrun. simpl snd. now rewrite emitted_unchanged.
  - split; [unfold requested_url; now rewrite Hv, Hm|].
    exists UnboundLocalError. split; [now right|]. intros env w.
    assert (Hrun : get_ligand_cif id ty env w = (Raise UnboundLocalError, w)).
    { rewrite get_ligand_cif_eq, Hv, Hm. reflexivity. }
    split; [exact Hrun|]. rewrite Hrun. simpl snd. now rewrite emitted_unchanged.
Qed.

(** A member of some other enumeration whose value is ["xyz"], and [None]. *)
Lemma foreign_category_and_None_fail :
  (requested_url "HEM" (Object (Some (PyStr "xyz")) "Other.XYZ") = None
   /\ exists e : exception,
        (e = AttributeError \/ e = UnboundLocalError)
        /\ forall env w,
             get_ligand_cif "HEM" (Object (Some (PyStr "xyz")) "Other.XYZ") env w = (Raise e, w)
             /\ gets (emitted w (snd (get_ligand_cif "HEM"
                                        (Object (Some (PyStr "xyz")) "Other.XYZ") env w))) = [])
  /\ (requested_url "HEM" (Object None "None") = None
      /\ exists e : exception,
           (e = AttributeError \/ e = UnboundLocalError)
           /\ forall env w,
                get_ligand_cif "HEM" (Object None "None") env w = (Raise e, w)
                /\ gets (emitted w (snd (get_ligand_cif "HEM" (Object None "None") env w))) = []).
Proof.
  split.
  - apply (unknown_category_fails_before_network "HEM" (Object (Some (PyStr "xyz")) "Other.XYZ")).
    intros t; destruct t; discriminate.
  - apply (unknown_category_fails_before_network "HEM" (Object None "None")).
    intros t; destruct t; discriminate.
Defined.

Example foreign_category_raises_UnboundLocalError :
  get_ligand_cif "HEM" (Object (Some (PyStr "xyz")) "Other.XYZ") network_down (empty_world "/content")
  = (Raise UnboundLocalError, empty_world "/content").
Proof. reflexivity. Qed.

(** C10. For the empty identifier and each of the three categories, indexing
    the identifier raises [IndexError]; nothing catches it, and the world is
    as before the call: no request was made and no file created. *)
Theorem empty_identifier_raises_IndexError
    (t : ligandType) (env : environment) (w : world) :
  get_ligand_cif "" (Member t) env w = (Raise IndexError, w)
  /\ requested_url "" (Member t) = None.
Proof.
  assert (Hm : match_value "" (PyStr (value t)) = Raise IndexError).
  { destruct t; unfold match_value; simpl matches_literal; cbv iota;
      rewrite getitem_empty; reflexivity. }
  split.
  - rewrite get_ligand_cif_eq. unfold getattr_value. now rewrite Hm.
  - unfold requested_url, getattr_value. now rewrite Hm.
Qed.

(** ** The claims about repeated fetches *)

Section Succeeding.

Variables (id : string) (ty : pyobject) (env : environment) (w : world).
Variables (url : string) (r : response).
Hypothesis has_url : requested_url id ty = Some url.
Hypothesis responds : http_get env url = inr r.
Hypothesis status_ok : status_code r = 200.
Hypothesis disk_ok : disk env (local_file id w) (content r) = DiskOk.

Lemma run_success :
  get_ligand_cif id ty env w =
  (Ok (Some (local_file id w)),
   store (local_file id w) (content r) (log (OpenWb (local_file id w)) (log (Get url) w))).
Proof using has_url responds status_ok disk_ok.
  destruct (with_url_fetches id ty env w url has_url) as (dir & Hurl & ->).
  unfold fetch. cbv zeta. rewrite <- Hurl, responds.
  apply Z.eqb_eq in status_ok. rewrite status_ok, disk_ok. reflexivity.
Qed.

End Succeeding.

Lemma local_file_same_cwd (id : string) (w1 w2 : world) :
  cwd w1 = cwd w2 -> local_file id w1 = local_file id w2.
Proof. unfold local_file. now intros ->. Qed.

(** C7. After a successful fetch of an identifier, a second successful fetch
    of it returns the same path without raising, replaces the content of
    that file by the new payload, and leaves every other path as it was. *)
Theorem refetch_overwrites
    (id : string) (ty : pyobject) (env1 env2 : environment) (w0 w1 : world)
    (path url : string) (r2 : response) :
  get_ligand_cif id ty env1 w0 = (Ok (Some path), w1) ->
  requested_url id ty = Some url ->
  http_get env2 url = inr r2 ->
  status_code r2 = 200 ->
  disk env2 path (content r2) = DiskOk ->
  exists w2 : world,
    get_ligand_cif id ty env2 w1 = (Ok (Some path), w2)
    /\ is_Some (fs w1 !! path)
    /\ fs w2 !! path = Some (content r2)
    /\ forall q : string, q <> path -> fs w2 !! q = fs w1 !! q.
Proof.
  intros Hfirst Hu Hr Hs Hd.
  pose proof (run_cwd id ty env1 w0) as Hcwd. rewrite Hfirst in Hcwd. simpl snd in Hcwd.
  destruct (run_returns_path id ty env1 w0 path w1 Hfirst)
    as (url1 & r1 & _ & _ & _ & _ & Hpath & Hw1).
  assert (Hfile : local_file id w1 = path).
  { rewrite Hpath. now apply local_file_same_cwd. }
  rewrite <- Hfile in Hd.
  eexists. split; [rewrite (run_success id ty env2 w1 url r2 Hu Hr Hs Hd), Hfile; reflexivity|].
  split; [rewrite Hw1; simpl fs; rewrite lookup_insert_eq; eauto|].
  split; [simpl fs; apply lookup_insert_eq|].
  intros q Hq. simpl fs. now apply lookup_insert_ne.
Qed.

Lemma HEM_refetched :
  let env1 := serving HEM_url (bytes_of "data_HEM") in
  let env2 := serving HEM_url (bytes_of "data_HEM # revised") in
  let w0 := empty_world "/content" in
  let w1 := snd (get_ligand_cif "HEM" (Member CCD) env1 w0) in
  exists w2 : world,
    get_ligand_cif "HEM" (Member CCD) env2 w1 = (Ok (Some "/content/HEM.cif"), w2)
    /\ is_Some (fs w1 !! "/content/HEM.cif")
    /\ fs w2 !! "/content/HEM.cif" = Some (bytes_of "data_HEM # revised")
    /\ forall q : string, q <> "/content/HEM.cif" -> fs w2 !! q = fs w1 !! q.
Proof.
  intros env1 env2 w0 w1.
  apply (refetch_overwrites "HEM" (Member CCD) env1 env2 w0 w1 "/content/HEM.cif" HEM_url
           {| status_code := 200; content := bytes_of "data_HEM # revised" |});
    vm_compute; reflexivity.
Defined.

(** C9, as amended. Two successful fetches of one identifier and category
    that receive the same payload and are made from the same working
    directory return the same path and leave the same bytes there: the
    fetch is a function of its arguments, the working directory and the
    payload. *)
Theorem same_payload_same_artifact
    (id : string) (ty : pyobject) (env1 env2 : environment) (w1 w2 w1' w2' : world)
    (p1 p2 url : string) (r1 r2 : response) :
  get_ligand_cif id ty env1 w1 = (Ok (Some p1), w1') ->
  get_ligand_cif id ty env2 w2 = (Ok (Some p2), w2') ->
  requested_url id ty = Some url ->
  http_get env1 url = inr r1 ->
  http_get env2 url = inr r2 ->
  content r1 = content r2 ->
  cwd w1 = cwd w2 ->
  p1 = p2
  /\ fs w1' !! p1 = Some (content r1)
  /\ fs w2' !! p2 = Some (content r2)
  /\ fs w1' !! p1 = fs w2' !! p2.
Proof.
  intros H1 H2 Hu Hr1 Hr2 Hc Hcwd.
  destruct (run_returns_path id ty env1 w1 p1 w1' H1)
    as (u1 & s1 & Hu1 & Hs1 & _ & _ & Hp1 & Hw1).
  destruct (run_returns_path id ty env2 w2 p2 w2' H2)
    as (u2 & s2 & Hu2 & Hs2 & _ & _ & Hp2 & Hw2).
  rewrite Hu in Hu1, Hu2. injection Hu1 as <-. injection Hu2 as <-.
  rewrite Hr1 in Hs1. injection Hs1 as <-. rewrite Hr2 in Hs2. injection Hs2 as <-.
  assert (Hp : p1 = p2) by (rewrite Hp1, Hp2; now apply local_file_same_cwd).
  assert (F1 : fs w1' !! p1 = Some (content r1)) by (rewrite Hw1; apply lookup_insert_eq).
  assert (F2 : fs w2' !! p2 = Some (content r2)) by (rewrite Hw2; apply lookup_insert_eq).
  split; [exact Hp|]. split; [exact F1|]. split; [exact F2|]. now rewrite F1, F2, Hc.
Qed.

Lemma HEM_fetched_twice :
  let env := serving HEM_url (bytes_of "data_HEM") in
  let w1 := empty_world "/content" in
  let w2 := store "/content/notes.txt" (bytes_of "heme") (empty_world "/content") in
  let p1 := "/content/HEM.cif" in
  let p2 := "/content/HEM.cif" in
  let r := {| status_code := 200; content := bytes_of "data_HEM" |} in
  p1 = p2
  /\ fs (snd (get_ligand_cif "HEM" (Member CCD) env w1)) !! p1 = Some (content r)
  /\ fs (snd (get_ligand_cif "HEM" (Member CCD) env w2)) !! p2 = Some (content r)
  /\ fs (snd (get_ligand_cif "HEM" (Member CCD) env w1)) !! p1
     = fs (snd (get_ligand_cif "HEM" (Member CCD) env w2)) !! p2.
Proof.
  intros env w1 w2 p1 p2 r.
  apply (same_payload_same_artifact "HEM" (Member CCD) env env w1 w2
           (snd (get_ligand_cif "HEM" (Member CCD) env w1))
           (snd (get_ligand_cif "HEM" (Member CCD) env w2)) p1 p2 HEM_url r r);
    vm_compute; reflexivity.
Defined.

(** Fetching again under unchanged remote content changes no file at all. *)
Lemma refetch_same_payload_changes_nothing
    (id : string) (ty : pyobject) (env : environment) (w0 w1 w2 : world)
    (p1 p2 : string) :
  get_ligand_cif id ty env w0 = (Ok (Some p1), w1) ->
  get_ligand_cif id ty env w1 = (Ok (Some p2), w2) ->
  p2 = p1 /\ fs w2 = fs w1.
Proof.
  intros H1 H2.
  pose proof (run_cwd id ty env w0) as Hcwd. rewrite H1 in Hcwd. simpl snd in Hcwd.
  destruct (run_returns_path id ty env w0 p1 w1 H1)
    as (u1 & s1 & Hu1 & Hs1 & _ & _ & Hp1 & Hw1).
  destruct (run_returns_path id ty env w1 p2 w2 H2)
    as (u2 & s2 & Hu2 & Hs2 & _ & _ & Hp2 & Hw2).
  rewrite Hu1 in Hu2. injection Hu2 as <-. rewrite Hs1 in Hs2. injection Hs2 as <-.
  assert (Hp : p2 = p1) by (rewrite Hp1, Hp2; now apply local_file_same_cwd).
  split; [exact Hp|]. rewrite Hw2, Hp. simpl fs. apply insert_id.
  rewrite Hw1. simpl fs. apply lookup_insert_eq.
Qed.

(** ** A timeout *)

Example timeout_propagates :
  get_ligand_cif "HEM" (Member CCD) network_down (empty_world "/content")
  = (Raise (RequestException "Timeout"),
     {| cwd := "/content"; fs := ∅; events := [Get HEM_url] |}).
Proof. vm_compute. reflexivity. Qed.

(** In the root directory [os.path.join] adds no second separator. *)
Example fetch_in_root_directory :
  fst (get_ligand_cif "HEM" (Member CCD) (serving HEM_url (bytes_of "data_HEM")) (empty_world "/"))
  = Ok (Some "/HEM.cif").
Proof. vm_compute. reflexivity. Qed.

(** * Further properties of [get_ligand_cif] *)

(** ** Every run at a glance *)

(** What a fetch returns, what it leaves in the files and what it adds to
    the trace, for each answer of the environment. *)
Lemma fetch_summary (id : string) (ty : pyobject) (dir : string)
    (env : environment) (w : world) :
  let url := PosixPath.join PDBECHEM_URL [dir; id +:+ ".cif"] in
  let file := local_file id w in
  let line := diagnostic id ty in
  (fst (fetch id ty dir env w),
   fs (snd (fetch id ty dir env w)),
   emitted w (snd (fetch id ty dir env w)))
  = match http_get env url with
    | inl e =>
        if is_AssertionError e then (Ok None, fs w, [Get url; Print line])
        else (Raise e, fs w, [Get url])
    | inr r =>
        if status_code r =? 200 then
          match disk env file (content r) with
          | DiskOk =>
              (Ok (Some file), <[file := content r]> (fs w), [Get url; OpenWb file])
          | OpenRaises e =>
              if is_AssertionError e
              then (Ok None, fs w, [Get url; OpenWb file; Print line])
              else (Raise e, fs w, [Get url; OpenWb file])
          | WriteRaises e k =>
              if is_AssertionError e
              then (Ok None, <[file := take k (content r)]> (fs w),
                    [Get url; OpenWb file; Print line])
              else (Raise e, <[file := take k (content r)]> (fs w), [Get url; OpenWb file])
          end
        else (Ok None, fs w, [Get url; Print line])
    end.
Proof.
  cbv zeta. rewrite fetch_emitted. unfold fetch, handled, after_exception. cbv zeta.
  destruct (http_get env _) as [e|r].
  - destruct (is_AssertionError e); reflexivity.
  - destruct (status_code r =? 200); [|reflexivity].
    destruct (disk env _ _) as [|e|e k]; simpl disk_exception; cbv beta iota;
      [reflexivity | destruct (is_AssertionError e); reflexivity ..].
Qed.

(** Split a run into the two ways it can go: no URL, or a fetch whose
    summary is [H]. *)
Ltac run_cases id ty env w H :=
  let url := fresh "url" in
  let dir := fresh "dir" in
  let Hu := fresh "Hu" in
  let Hurl := fresh "Hurl" in
  let Hfetch := fresh "Hfetch" in
  let e := fresh "e" in
  destruct (requested_url id ty) as [url|] eqn:Hu;
  [ destruct (with_url_fetches id ty env w url Hu) as (dir & Hurl & Hfetch);
    rewrite ?Hfetch;
    pose proof (fetch_summary id ty dir env w) as H; cbv zeta in H;
    rewrite <- Hurl in H
  | destruct (no_url_raises id ty env w Hu) as (e & H); rewrite ?H ].

(** Take the summary apart once the answers of the environment are known. *)
Ltac read_summary H :=
  let Hout := fresh "Hout" in
  let Hfs := fresh "Hfs" in
  let Htr := fresh "Htr" in
  injection H as Hout Hfs Htr; rewrite ?Hout, ?Hfs, ?Htr.

Lemma run_frame (id : string) (ty : pyobject) (env : environment) (w : world) (q : string) :
  q <> local_file id w ->
  fs (snd (get_ligand_cif id ty env w)) !! q = fs w !! q.
Proof.
  intros Hq. run_cases id ty env w H; [|reflexivity].
  destruct (http_get env url) as [e|r].
  - destruct (is_AssertionError e); read_summary H; reflexivity.
  - destruct (status_code r =? 200); [|read_summary H; reflexivity].
    destruct (disk env _ _) as [|e|e k]; [|destruct (is_AssertionError e)..];
      read_summary H; try reflexivity; now apply lookup_insert_ne.
Qed.

(** ** What a call can and cannot touch *)

(** Whatever the arguments and the environment, and however the call ends,
    it changes no file other than [os.path.join(os.getcwd(), id + ".cif")]
    and it leaves the working directory as it is. *)
Theorem only_the_local_file_can_change
    (id : string) (ty : pyobject) (env : environment) (w : world) (q : string) :
  q <> local_file id w ->
  fs (snd (get_ligand_cif id ty env w)) !! q = fs w !! q
  /\ cwd (snd (get_ligand_cif id ty env w)) = cwd w.
Proof. intros Hq. split; [now apply run_frame | apply run_cwd]. Qed.

Lemma fetching_HEM_keeps_notes :
  let w := store "/content/notes.txt" (bytes_of "heme") (empty_world "/content") in
  let env := serving HEM_url (bytes_of "data_HEM") in
  "/content/notes.txt" <> local_file "HEM" w
  /\ fs (snd (get_ligand_cif "HEM" (Member CCD) env w)) !! "/content/notes.txt"
     = fs w !! "/content/notes.txt"
  /\ cwd (snd (get_ligand_cif "HEM" (Member CCD) env w)) = cwd w.
Proof.
  intros w env.
  assert (Hq : "/content/notes.txt" <> local_file "HEM" w) by (vm_compute; discriminate).
  split; [exact Hq|].
  apply (only_the_local_file_can_change "HEM" (Member CCD) env w "/content/notes.txt" Hq).
Defined.

(** A path that the function returns is the local file, and that file holds
    the whole payload of a response with status 200 to the requested URL:
    the caller can hand the path to a reader at once. *)
Theorem returned_path_holds_the_payload
    (id : string) (ty : pyobject) (env : environment) (w w' : world) (path : string) :
  get_ligand_cif id ty env w = (Ok (Some path), w') ->
  path = local_file id w
  /\ exists url r,
       requested_url id ty = Some url
       /\ http_get env url = inr r
       /\ status_code r = 200
       /\ fs w' !! path = Some (content r)
       /\ emitted w w' = [Get url; OpenWb path].
Proof.
  intros Hrun.
  destruct (run_returns_path id ty env w path w' Hrun)
    as (url & r & Hu & Hr & Hs & _ & Hp & Hw).
  split; [exact Hp|]. exists url, r.
  split; [exact Hu|]. split; [exact Hr|]. split; [exact Hs|].
  split; [rewrite Hw; apply lookup_insert_eq | rewrite Hw; read_trace].
Qed.

Lemma returned_path_of_HEM :
  let env := serving HEM_url (bytes_of "data_HEM") in
  let w := empty_world "/content" in
  let w' := snd (get_ligand_cif "HEM" (Member CCD) env w) in
  "/content/HEM.cif" = local_file "HEM" w
  /\ exists url r,
       requested_url "HEM" (Member CCD) = Some url
       /\ http_get env url = inr r
       /\ status_code r = 200
       /\ fs w' !! "/content/HEM.cif" = Some (content r)
       /\ emitted w w' = [Get url; OpenWb "/content/HEM.cif"].
Proof.
  intros env w w'.
  apply (returned_path_holds_the_payload "HEM" (Member CCD) env w w' "/content/HEM.cif").
  vm_compute. reflexivity.
Defined.

(** The function returns [None] exactly when it has printed its diagnostic,
    and it never prints anything else: a caller that gets [None] has been
    told, and a caller that gets a path or an exception has seen no
    output. *)
Theorem None_iff_diagnostic_printed
    (id : string) (ty : pyobject) (env : environment) (w : world) :
  (fst (get_ligand_cif id ty env w) = Ok None
   <-> printed (emitted w (snd (get_ligand_cif id ty env w))) = [diagnostic id ty])
  /\ (fst (get_ligand_cif id ty env w) <> Ok None
      <-> printed (emitted w (snd (get_ligand_cif id ty env w))) = []).
Proof.
  run_cases id ty env w H.
  2:{ simpl fst. simpl snd. rewrite emitted_unchanged. simpl printed.
      split; split; try discriminate; reflexivity. }
  destruct (http_get env url) as [e|r].
  - destruct (is_AssertionError e); read_summary H; simpl printed;
      split; split; try discriminate; try reflexivity; try contradiction.
  - destruct (status_code r =? 200).
    + destruct (disk env _ _) as [|e|e k]; [|destruct (is_AssertionError e)..];
        read_summary H; simpl printed;
        split; split; try discriminate; try reflexivity; try contradiction.
    + read_summary H; simpl printed;
        split; split; try discriminate; try reflexivity; try contradiction.
Qed.

(** The calls that leave the process come in one fixed order and at most
    once each: nothing; or one request; then either the diagnostic, or the
    opening of the local file, after which only the diagnostic can follow. *)
Theorem trace_of_a_call
    (id : string) (ty : pyobject) (env : environment) (w : world) :
  let tr := emitted w (snd (get_ligand_cif id ty env w)) in
  (requested_url id ty = None /\ tr = [])
  \/ exists url,
       requested_url id ty = Some url
       /\ (tr = [Get url]
           \/ tr = [Get url; Print (diagnostic id ty)]
           \/ tr = [Get url; OpenWb (local_file id w)]
           \/ tr = [Get url; OpenWb (local_file id w); Print (diagnostic id ty)]).
Proof.
  cbv zeta. run_cases id ty env w H.
  2:{ left. split; [reflexivity|]. simpl snd. apply emitted_unchanged. }
  right. exists url. split; [reflexivity|].
  destruct (http_get env url) as [e|r].
  - destruct (is_AssertionError e); read_summary H; auto.
  - destruct (status_code r =? 200); [|read_summary H; auto].
    destruct (disk env _ _) as [|e|e k]; [|destruct (is_AssertionError e)..];
      read_summary H; auto.
Qed.

(** The function opens the local file, and so can change the files at all,
    only after a response with status 200 to the requested URL. *)
Theorem files_change_only_after_status_200
    (id : string) (ty : pyobject) (env : environment) (w : world) :
  fs (snd (get_ligand_cif id ty env w)) <> fs w
  \/ opens_file (emitted w (snd (get_ligand_cif id ty env w))) = true ->
  exists url r,
    requested_url id ty = Some url /\ http_get env url = inr r /\ status_code r = 200.
Proof.
  run_cases id ty env w H.
  2:{ simpl snd. rewrite emitted_unchanged. intros [Hne | Ho]; [contradiction | discriminate]. }
  destruct (http_get env url) as [e|r] eqn:Hget.
  - destruct (is_AssertionError e); read_summary H;
      (intros [Hne | Ho]; [contradiction | discriminate]).
  - destruct (status_code r =? 200) eqn:Hs.
    + intros _. exists url, r. apply Z.eqb_eq in Hs. auto.
    + read_summary H. intros [Hne | Ho]; [contradiction | discriminate].
Qed.

Lemma HEM_written_after_status_200 :
  let env := serving HEM_url (bytes_of "data_HEM") in
  let w := empty_world "/content" in
  exists url r,
    requested_url "HEM" (Member CCD) = Some url /\ http_get env url = inr r
    /\ status_code r = 200.
Proof.
  intros env w.
  apply (files_change_only_after_status_200 "HEM" (Member CCD) env w).
  right. vm_compute. reflexivity.
Defined.

(** ** Faults of the disk and of the libraries *)

(** The function writes straight into the target file.  When the write
    raises after [k] bytes, the exception reaches the caller and the file
    holds the first [k] bytes of the payload, whatever it held before: an
    artifact of an earlier fetch is lost.  When [open] itself raises, no
    file is changed. *)
Theorem failed_write_leaves_truncated_file
    (id : string) (ty : pyobject) (env : environment) (w : world)
    (url : string) (r : response) (e : exception) :
  requested_url id ty = Some url ->
  http_get env url = inr r ->
  status_code r = 200 ->
  is_AssertionError e = false ->
  (forall k, disk env (local_file id w) (content r) = WriteRaises e k ->
     fst (get_ligand_cif id ty env w) = Raise e
     /\ fs (snd (get_ligand_cif id ty env w)) !! local_file id w = Some (take k (content r)))
  /\ (disk env (local_file id w) (content r) = OpenRaises e ->
      fst (get_ligand_cif id ty env w) = Raise e
      /\ fs (snd (get_ligand_cif id ty env w)) = fs w).
Proof.
  intros Hu Hr Hs He.
  destruct (with_url_fetches id ty env w url Hu) as (dir & Hurl & ->).
  pose proof (fetch_summary id ty dir env w) as H. cbv zeta in H.
  rewrite <- Hurl, Hr in H. apply Z.eqb_eq in Hs. rewrite Hs in H.
  split.
  - intros k Hd. rewrite Hd, He in H. read_summary H.
    split; [reflexivity | apply lookup_insert_eq].
  - intros Hd. rewrite Hd, He in H. read_summary H. split; reflexivity.
Qed.

Lemma HEM_truncated_by_full_disk :
  let env := disk_failing_after 4 HEM_url (bytes_of "data_HEM_revised") in
  let w := store "/content/HEM.cif" (bytes_of "data_HEM") (empty_world "/content") in
  let r := {| status_code := 200; content := bytes_of "data_HEM_revised" |} in
  let e := OSError "OSError" in
  (forall k, disk env (local_file "HEM" w) (content r) = WriteRaises e k ->
     fst (get_ligand_cif "HEM" (Member CCD) env w) = Raise e
     /\ fs (snd (get_ligand_cif "HEM" (Member CCD) env w)) !! local_file "HEM" w
        = Some (take k (content r)))
  /\ (disk env (local_file "HEM" w) (content r) = OpenRaises e ->
      fst (get_ligand_cif "HEM" (Member CCD) env w) = Raise e
      /\ fs (snd (get_ligand_cif "HEM" (Member CCD) env w)) = fs w).
Proof.
  intros env w r e.
  apply (failed_write_leaves_truncated_file "HEM" (Member CCD) env w HEM_url r e);
    vm_compute; reflexivity.
Defined.

Example HEM_after_full_disk :
  fs (snd (get_ligand_cif "HEM" (Member CCD)
             (disk_failing_after 4 HEM_url (bytes_of "data_HEM_revised"))
             (store "/content/HEM.cif" (bytes_of "data_HEM") (empty_world "/content"))))
    !! "/content/HEM.cif"
  = Some (bytes_of "data").
Proof. vm_compute. reflexivity. Qed.

(** [except AssertionError] guards the whole body of the [try] statement.
    An [AssertionError] raised inside [requests.get] is therefore taken for
    a failed status: the function prints the diagnostic and returns [None],
    although no response was received. *)
Theorem library_AssertionError_is_swallowed
    (id : string) (ty : pyobject) (env : environment) (w : world)
    (url : string) (e : exception) :
  requested_url id ty = Some url ->
  http_get env url = inl e ->
  is_AssertionError e = true ->
  fst (get_ligand_cif id ty env w) = Ok None
  /\ emitted w (snd (get_ligand_cif id ty env w)) = [Get url; Print (diagnostic id ty)]
  /\ fs (snd (get_ligand_cif id ty env w)) = fs w.
Proof.
  intros Hu Hr He.
  destruct (with_url_fetches id ty env w url Hu) as (dir & Hurl & ->).
  pose proof (fetch_summary id ty dir env w) as H. cbv zeta in H.
  rewrite <- Hurl, Hr, He in H. read_summary H. auto.
Qed.

Lemma HEM_with_asserting_library :
  let w := empty_world "/content" in
  fst (get_ligand_cif "HEM" (Member CCD) asserting w) = Ok None
  /\ emitted w (snd (get_ligand_cif "HEM" (Member CCD) asserting w))
     = [Get HEM_url; Print (diagnostic "HEM" (Member CCD))]
  /\ fs (snd (get_ligand_cif "HEM" (Member CCD) asserting w)) = fs w.
Proof.
  intros w.
  apply (library_AssertionError_is_swallowed "HEM" (Member CCD) asserting w HEM_url
           AssertionError); vm_compute; reflexivity.
Defined.

(** ** Identifiers that start with the separator *)

Lemma absolute_identifier_requests_bare_path :
  PosixPath.startswith_sep "/etc/HEM" = true
  /\ requested_url "/etc/HEM" (Member PRD) = Some "/etc/HEM.cif"
  /\ "/etc/HEM.cif" = "/etc/HEM" +:+ ".cif".
Proof.
  assert (Hs : PosixPath.startswith_sep "/etc/HEM" = true) by reflexivity.
  assert (Hu : requested_url "/etc/HEM" (Member PRD) = Some "/etc/HEM.cif")
    by (vm_compute; reflexivity).
  split; [exact Hs|]. split; [exact Hu|].
  exact (leading_sep_drops_base "/etc/HEM" (Member PRD) "/etc/HEM.cif" Hs Hu).
Defined.

(** For such an identifier the local file is not in the working directory
    either: it is the absolute path [id + ".cif"]. *)
Theorem absolute_identifier_escapes_cwd (id : string) (w : world) :
  PosixPath.startswith_sep id = true ->
  local_file id w = id +:+ ".cif".
Proof.
  intros Hs. unfold local_file, PosixPath.join. simpl fold_left.
  apply join_component_absolute. rewrite startswith_sep_app; [exact Hs|].
  now destruct id.
Qed.

Lemma absolute_identifier_local_file :
  PosixPath.startswith_sep "/etc/HEM" = true
  /\ local_file "/etc/HEM" (empty_world "/content") = "/etc/HEM" +:+ ".cif".
Proof.
  split; [reflexivity|].
  apply (absolute_identifier_escapes_cwd "/etc/HEM" (empty_world "/content")). reflexivity.
Defined.

(** ** One local file per identifier, whatever the category *)

Lemma refetch_in_same_environment :
  let env := serving HEM_url (bytes_of "data_HEM") in
  let w0 := empty_world "/content" in
  let w1 := snd (get_ligand_cif "HEM" (Member CCD) env w0) in
  let w2 := snd (get_ligand_cif "HEM" (Member CCD) env w1) in
  "/content/HEM.cif" = "/content/HEM.cif" /\ fs w2 = fs w1.
Proof.
  intros env w0 w1 w2.
  apply (refetch_same_payload_changes_nothing "HEM" (Member CCD) env w0 w1 w2);
    vm_compute; reflexivity.
Defined.

(** The name of the local file does not mention the category.  Two
    successful fetches of one identifier under any two categories return
    the same path, and the second replaces what the first has written. *)
Theorem categories_share_the_local_file
    (id : string) (ty1 ty2 : pyobject) (env1 env2 : environment) (w0 w1 w2 : world)
    (p1 p2 : string) :
  get_ligand_cif id ty1 env1 w0 = (Ok (Some p1), w1) ->
  get_ligand_cif id ty2 env2 w1 = (Ok (Some p2), w2) ->
  p2 = p1
  /\ exists url2 r2,
       requested_url id ty2 = Some url2
       /\ http_get env2 url2 = inr r2
       /\ fs w2 !! p1 = Some (content r2).
Proof.
  intros H1 H2.
  pose proof (run_cwd id ty1 env1 w0) as Hcwd. rewrite H1 in Hcwd. simpl snd in Hcwd.
  destruct (run_returns_path id ty1 env1 w0 p1 w1 H1) as (_ & _ & _ & _ & _ & _ & Hp1 & _).
  destruct (run_returns_path id ty2 env2 w1 p2 w2 H2)
    as (url2 & r2 & Hu2 & Hr2 & _ & _ & Hp2 & Hw2).
  assert (Hp : p2 = p1) by (rewrite Hp1, Hp2; now apply local_file_same_cwd).
  split; [exact Hp|]. exists url2, r2. split; [exact Hu2|]. split; [exact Hr2|].
  rewrite Hw2, <- Hp. apply lookup_insert_eq.
Qed.

Lemma PRD_fetch_replaces_CCD_artifact :
  let w0 := empty_world "/content" in
  let w1 := snd (get_ligand_cif "HEM" (Member CCD) mirror w0) in
  let w2 := snd (get_ligand_cif "HEM" (Member PRD) mirror w1) in
  "/content/HEM.cif" = "/content/HEM.cif"
  /\ exists url2 r2,
       requested_url "HEM" (Member PRD) = Some url2
       /\ http_get mirror url2 = inr r2
       /\ fs w2 !! "/content/HEM.cif" = Some (content r2).
Proof.
  intros w0 w1 w2.
  apply (categories_share_the_local_file "HEM" (Member CCD) (Member PRD) mirror mirror
           w0 w1 w2 "/content/HEM.cif" "/content/HEM.cif");
    vm_compute; reflexivity.
Defined.

(** ** Different identifiers do not collide *)

Section Cancelling.

Implicit Types (s t a b : string).

Lemma append_inv_head s a b : s +:+ a = s +:+ b -> a = b.
Proof.
  induction s as [|c s IH]; [trivial|].
  change (String c (s +:+ a) = String c (s +:+ b) -> a = b).
  intros [= E]. now apply IH.
Qed.

Lemma length_append_str s t :
  String.length (s +:+ t) = (String.length s + String.length t)%nat.
Proof.
  induction s as [|c s IH]; [reflexivity|].
  change (S (String.length (s +:+ t)) = S (String.length s + String.length t)).
  now rewrite IH.
Qed.

(** Two prefixes of equal length of one string are equal. *)
Lemma append_same_length s t a b :
  String.length s = String.length t -> s +:+ a = t +:+ b -> s = t /\ a = b.
Proof.
  revert t. induction s as [|c s IH]; intros [|d t] Hlen; try discriminate.
  - intros E. split; [reflexivity | exact E].
  - change (String c (s +:+ a) = String d (t +:+ b) -> String c s = String d t /\ a = b).
    intros [= -> E]. injection Hlen as Hlen.
    destruct (IH t Hlen E) as [-> ->]. split; reflexivity.
Qed.

Lemma append_inv_tail s t a : s +:+ a = t +:+ a -> s = t.
Proof.
  intros E. assert (Hlen : String.length s = String.length t).
  { apply (f_equal String.length) in E. rewrite !length_append_str in E. lia. }
  now destruct (append_same_length s t a a Hlen E).
Qed.

(** [id + "/" + id + ".cif"] determines [id]. *)
Lemma doubled_identifier s t :
  s +:+ "/" +:+ s +:+ ".cif" = t +:+ "/" +:+ t +:+ ".cif" -> s = t.
Proof.
  intros E. assert (Hlen : String.length s = String.length t).
  { apply (f_equal String.length) in E. rewrite !length_append_str in E.
    simpl String.length in E. lia. }
  now destruct (append_same_length s t _ _ Hlen E).
Qed.

End Cancelling.

Lemma value_injective (t1 t2 : ligandType) : value t1 = value t2 -> t1 = t2.
Proof. destruct t1, t2; (reflexivity || discriminate). Qed.

Lemma spec_url_injective (t1 t2 : ligandType) (id1 id2 : string) (c1 c2 : ascii) :
  spec_url t1 id1 c1 = spec_url t2 id2 c2 -> t1 = t2 /\ id1 = id2.
Proof.
  unfold spec_url. intros E. do 2 apply append_inv_head in E.
  assert (Hlen : String.length (value t1) = String.length (value t2))
    by (destruct t1, t2; reflexivity).
  destruct (append_same_length _ _ _ _ Hlen E) as [Hv E1].
  split; [now apply value_injective|].
  apply append_inv_head in E1.
  destruct (append_same_length (String c1 "") (String c2 "") _ _ eq_refl E1) as [_ E2].
  apply append_inv_head in E2. now apply doubled_identifier.
Qed.

(** Well-formed identifiers and categories are told apart by the URL: two
    calls that request the same URL were given the same identifier and the
    same category. *)
Theorem requested_url_injective (id1 id2 : string) (t1 t2 : ligandType) (url : string) :
  id1 <> "" -> PosixPath.startswith_sep id1 = false -> PosixPath.endswith_sep id1 = false ->
  id2 <> "" -> PosixPath.startswith_sep id2 = false -> PosixPath.endswith_sep id2 = false ->
  requested_url id1 (Member t1) = Some url ->
  requested_url id2 (Member t2) = Some url ->
  id1 = id2 /\ t1 = t2.
Proof.
  intros N1 S1 E1 N2 S2 E2 U1 U2.
  destruct (shard_indexed id1 t1 N1) as (c1 & Hc1 & _).
  destruct (shard_indexed id2 t2 N2) as (c2 & Hc2 & _).
  rewrite (requested_url_member id1 t1 N1 c1 Hc1), (url_segments id1 t1 N1 S1 E1 c1 Hc1) in U1.
  rewrite (requested_url_member id2 t2 N2 c2 Hc2), (url_segments id2 t2 N2 S2 E2 c2 Hc2) in U2.
  rewrite <- U2 in U1. apply (inj Some) in U1.
  destruct (spec_url_injective t1 t2 id1 id2 c1 c2 U1) as [-> ->]. split; reflexivity.
Qed.

Lemma HEM_url_names_HEM :
  "HEM" = "HEM" /\ CCD = CCD.
Proof.
  apply (requested_url_injective "HEM" "HEM" CCD CCD HEM_url);
    solve [discriminate | vm_compute; reflexivity].
Defined.

(** Without the proviso the category can be lost. *)
Example absolute_identifier_loses_category :
  requested_url "/x" (Member CCD) = requested_url "/x" (Member PRD).
Proof. vm_compute. reflexivity. Qed.

Lemma local_file_injective (id1 id2 : string) (w : world) :
  PosixPath.startswith_sep id1 = false -> PosixPath.startswith_sep id2 = false ->
  local_file id1 w = local_file id2 w -> id1 = id2.
Proof.
  intros S1 S2. rewrite (local_file_in_cwd id1 w S1), (local_file_in_cwd id2 w S2).
  intros E. apply append_inv_head in E. now apply append_inv_tail in E.
Qed.

Lemma has_separator_start (id : string) :
  has_separator id = false -> PosixPath.startswith_sep id = false.
Proof.
  destruct id as [|c t]; [reflexivity|]. simpl. unfold PosixPath.startswith_sep. simpl.
  intros H. now apply orb_false_elim in H.
Qed.

(** Fetching one identifier leaves the artifact of every other identifier
    alone, however the fetch ends, when neither identifier contains the
    separator: both artifacts are then plain entries of the working
    directory, [<id>.cif] and [<kept>.cif], with different names. *)
Theorem other_artifacts_are_kept
    (id kept : string) (ty : pyobject) (env : environment) (w : world) :
  id <> kept ->
  has_separator id = false ->
  has_separator kept = false ->
  local_file id w = directory_prefix (cwd w) +:+ id +:+ ".cif"
  /\ local_file kept w = directory_prefix (cwd w) +:+ kept +:+ ".cif"
  /\ fs (snd (get_ligand_cif id ty env w)) !! local_file kept w = fs w !! local_file kept w.
Proof.
  intros Hne S1 S2.
  apply has_separator_start in S1. apply has_separator_start in S2.
  split; [now apply local_file_in_cwd|]. split; [now apply local_file_in_cwd|].
  apply run_frame. intros E.
  apply Hne. symmetry. now apply (local_file_injective kept id w).
Qed.

Lemma fetching_HCO_keeps_HEM :
  let env := serving HEM_url (bytes_of "data_HEM") in
  let w := snd (get_ligand_cif "HEM" (Member CCD) env (empty_world "/content")) in
  local_file "HCO" w = directory_prefix (cwd w) +:+ "HCO" +:+ ".cif"
  /\ local_file "HEM" w = directory_prefix (cwd w) +:+ "HEM" +:+ ".cif"
  /\ fs (snd (get_ligand_cif "HCO" (Member CCD) mirror w)) !! local_file "HEM" w
     = fs w !! local_file "HEM" w.
Proof.
  intros env w.
  apply (other_artifacts_are_kept "HCO" "HEM" (Member CCD) mirror w);
    [discriminate | reflexivity | reflexivity].
Defined.

(** With a separator in it an identifier can spell the file of another one:
    ["./HEM"] gives ["/content/./HEM.cif"], which the system resolves to the
    artifact of ["HEM"]. *)
Example identifier_with_dot_segment :
  has_separator "./HEM" = true
  /\ local_file "./HEM" (empty_world "/content") = "/content/./HEM.cif"
  /\ local_file "HEM" (empty_world "/content") = "/content/HEM.cif".
Proof. repeat split. Qed.

(** An absolute identifier can name the artifact of another identifier. *)
Example absolute_identifier_hits_other_artifact :
  local_file "/content/HEM" (empty_world "/content") = local_file "HEM" (empty_world "/content").
Proof. reflexivity. Qed.

(** ** The category argument is read through [value] only *)

(** The annotation [ligandType] is not enforced.  Any object whose [value]
    equals the value of a member is fetched like that member: the same URL,
    the same result, the same files; only the text of the diagnostic, which
    formats the object, can differ. *)
Theorem dispatch_is_on_value_alone
    (id : string) (t : ligandType) (shown : string) (env : environment) (w : world) :
  let o := Object (Some (PyStr (value t))) shown in
  requested_url id o = requested_url id (Member t)
  /\ fst (get_ligand_cif id o env w) = fst (get_ligand_cif id (Member t) env w)
  /\ fs (snd (get_ligand_cif id o env w)) = fs (snd (get_ligand_cif id (Member t) env w))
  /\ gets (emitted w (snd (get_ligand_cif id o env w)))
     = gets (emitted w (snd (get_ligand_cif id (Member t) env w))).
Proof.
  intros o. split; [reflexivity|].
  rewrite !get_ligand_cif_eq. unfold o, getattr_value.
  destruct (match_value id (PyStr (value t))) as [[dir|]|e]; [|auto..].
  pose proof (fetch_summary id (Object (Some (PyStr (value t))) shown) dir env w) as H1.
  pose proof (fetch_summary id (Member t) dir env w) as H2.
  cbv zeta in H1, H2.
  destruct (http_get env _) as [e|r].
  - destruct (is_AssertionError e); injection H1 as -> -> ->; injection H2 as -> -> ->; auto.
  - destruct (status_code r =? 200).
    + destruct (disk env _ _) as [|e|e k]; [|destruct (is_AssertionError e)..];
        injection H1 as -> -> ->; injection H2 as -> -> ->; auto.
    + injection H1 as -> -> ->; injection H2 as -> -> ->; auto.
Qed.

(** ** The last component survives every join *)

Lemma join_component_suffix (path b : string) :
  exists before, PosixPath.join_component path b = before +:+ b.
Proof.
  unfold PosixPath.join_component.
  destruct (PosixPath.startswith_sep b); [exists ""; reflexivity|].
  destruct (Str.is_empty path || PosixPath.endswith_sep path).
  - exists path. reflexivity.
  - exists (path +:+ "/"). now rewrite app_assoc_str.
Qed.

(** For every identifier, well-formed or not, the requested URL and the
    local file end with [<identifier>.cif]. *)
Theorem url_and_file_end_with_identifier_cif
    (id : string) (ty : pyobject) (w : world) (url : string) :
  requested_url id ty = Some url ->
  (exists before, url = before +:+ id +:+ ".cif")
  /\ (exists before, local_file id w = before +:+ id +:+ ".cif").
Proof.
  intros Hu. split.
  - unfold requested_url in Hu.
    destruct (getattr_value ty) as [v|]; [|discriminate].
    destruct (match_value id v) as [[dir|]|]; [|discriminate..].
    apply (inj Some) in Hu. subst url. unfold PosixPath.join. simpl fold_left.
    apply join_component_suffix.
  - unfold local_file, PosixPath.join. simpl fold_left. apply join_component_suffix.
Qed.

Lemma url_and_file_of_absolute_identifier :
  (exists before, "/etc/HEM.cif" = before +:+ "/etc/HEM" +:+ ".cif")
  /\ (exists before, local_file "/etc/HEM" (empty_world "/content")
                     = before +:+ "/etc/HEM" +:+ ".cif").
Proof.
  apply (url_and_file_end_with_identifier_cif "/etc/HEM" (Member CLC)
           (empty_world "/content") "/etc/HEM.cif").
  vm_compute. reflexivity.
Defined.

(** ** The claim about what is handled and what propagates *)

Lemma is_AssertionError_true (e : exception) :
  is_AssertionError e = true -> e = AssertionError.
Proof. destruct e; (reflexivity || discriminate). Qed.

Lemma is_AssertionError_false (e : exception) :
  e <> AssertionError -> is_AssertionError e = false.
Proof. destruct e; (reflexivity || contradiction). Qed.

(** C8, as amended. The function handles locally (prints the diagnostic and
    returns [None]) a response whose status is not 200 and, besides it, only
    an [AssertionError] raised by a call in the body of the [try] statement,
    which the handler cannot tell from the failed status check.  Every
    other exception reaches the caller as it was raised: any exception of
    [requests.get] that is not an [AssertionError], such as a timeout, any
    such exception of [open] or of the write, and the exceptions raised
    before a request is made. *)
Theorem only_failed_status_and_AssertionError_are_handled
    (id : string) (ty : pyobject) (env : environment) (w : world) :
  let out := fst (get_ligand_cif id ty env w) in
  let w' := snd (get_ligand_cif id ty env w) in
  (printed (emitted w w') <> [] <->
     exists url, requested_url id ty = Some url
       /\ ((exists r, http_get env url = inr r /\ status_code r <> 200)
           \/ http_get env url = inl AssertionError
           \/ (exists r, http_get env url = inr r /\ status_code r = 200
                 /\ disk_exception (disk env (local_file id w) (content r))
                    = Some AssertionError)))
  /\ (printed (emitted w w') <> [] -> out = Ok None)
  /\ (forall url e, requested_url id ty = Some url -> http_get env url = inl e ->
        e <> AssertionError ->
        out = Raise e /\ emitted w w' = [Get url] /\ fs w' = fs w)
  /\ (forall url r e, requested_url id ty = Some url -> http_get env url = inr r ->
        status_code r = 200 ->
        disk_exception (disk env (local_file id w) (content r)) = Some e ->
        e <> AssertionError ->
        out = Raise e /\ printed (emitted w w') = [])
  /\ (requested_url id ty = None -> exists e, out = Raise e /\ w' = w).
Proof.
  cbv zeta. run_cases id ty env w H.
  2:{ simpl fst. simpl snd. rewrite emitted_unchanged. simpl printed.
      split; [split; [contradiction | intros (u & [=] & _)]|].
      split; [contradiction|]. split; [discriminate|]. split; [discriminate|]. eauto. }
  destruct (http_get env url) as [e0|r0] eqn:Hget.
  - (* [requests.get] raised *)
    destruct (is_AssertionError e0) eqn:He0; read_summary H; simpl printed.
    + apply is_AssertionError_true in He0. subst e0.
      split; [split; [intros _; exists url; auto | discriminate]|].
      split; [reflexivity|]. split.
      { intros u e [= <-] He Hne. rewrite Hget in He. injection He as <-. contradiction. }
      split; [|discriminate].
      intros u r e [= <-] Hr. rewrite Hget in Hr. discriminate.
    + split; [split; [contradiction|]|].
      { intros (u & [= <-] & [(r & Hr & _) | [Hr | (r & Hr & _)]]);
          rewrite Hget in Hr; try discriminate.
        injection Hr as ->. discriminate. }
      split; [contradiction|]. split.
      { intros u e [= <-] He _. rewrite Hget in He. injection He as <-. auto. }
      split; [|discriminate].
      intros u r e [= <-] Hr. rewrite Hget in Hr. discriminate.
  - destruct (status_code r0 =? 200) eqn:Hs.
    + (* status 200: the write *)
      apply Z.eqb_eq in Hs.
      destruct (disk env (local_file id w) (content r0)) as [|e1|e1 k] eqn:Hd;
        [|destruct (is_AssertionError e1) eqn:He1..]; read_summary H; simpl printed.
      all: try (apply is_AssertionError_true in He1; subst e1).
      all: split;
        [split;
          [first [contradiction
                 | intros _; exists url; split; [reflexivity|]; right; right;
                   exists r0; rewrite Hd; auto]
          |first [discriminate
                 | intros (u & [= <-] & [(r & Hr & Hne) | [Hr | (r & Hr & _ & Hx)]]);
                   rewrite Hget in Hr; try discriminate; injection Hr as <-;
                   [contradiction | rewrite Hd in Hx; simpl in Hx; try discriminate;
                                    injection Hx as ->; discriminate]]]|].
      all: split; [first [contradiction | reflexivity]|].
      all: split; [intros u e [= <-] He; rewrite Hget in He; discriminate|].
      all: split; [|discriminate].
      all: intros u r e [= <-] Hr _ Hx Hne; rewrite Hget in Hr; injection Hr as <-;
        rewrite Hd in Hx; simpl in Hx; try discriminate; injection Hx as <-;
        first [contradiction | auto].
    + (* any other status: the diagnostic *)
      apply Z.eqb_neq in Hs. read_summary H. simpl printed.
      split; [split; [intros _; exists url; split; [reflexivity|]; left; exists r0; auto
                     | discriminate]|].
      split; [reflexivity|]. split.
      { intros u e [= <-] He. rewrite Hget in He. discriminate. }
      split; [|discriminate].
      intros u r e [= <-] Hr Hok. rewrite Hget in Hr. injection Hr as <-. contradiction.
Qed.

Lemma timeout_and_full_disk_reach_the_caller :
  let w := empty_world "/content" in
  let full := disk_full HEM_url (bytes_of "data_HEM") in
  (fst (get_ligand_cif "HEM" (Member CCD) network_down w) = Raise (RequestException "Timeout")
   /\ emitted w (snd (get_ligand_cif "HEM" (Member CCD) network_down w)) = [Get HEM_url]
   /\ fs (snd (get_ligand_cif "HEM" (Member CCD) network_down w)) = fs w)
  /\ (fst (get_ligand_cif "HEM" (Member CCD) full w) = Raise (OSError "OSError")
      /\ printed (emitted w (snd (get_ligand_cif "HEM" (Member CCD) full w))) = []).
Proof.
  intros w full. split.
  - destruct (only_failed_status_and_AssertionError_are_handled "HEM" (Member CCD) network_down w)
      as (_ & _ & Hget & _).
    apply (Hget HEM_url (RequestException "Timeout"));
      [vm_compute; reflexivity | reflexivity | discriminate].
  - destruct (only_failed_status_and_AssertionError_are_handled "HEM" (Member CCD) full w)
      as (_ & _ & _ & Hdisk & _).
    apply (Hdisk HEM_url {| status_code := 200; content := bytes_of "data_HEM" |}
             (OSError "OSError"));
      [vm_compute; reflexivity | vm_compute; reflexivity | reflexivity
      | reflexivity | discriminate].
Defined.

(** C8, as first stated, fails when [requests.get] raises an
    [AssertionError]: that failure is no response with a failed status, and
    yet it does not reach the caller; the function prints the diagnostic
    and returns [None]. *)
Lemma AssertionError_of_requests_does_not_propagate :
  let w := empty_world "/content" in
  requested_url "HEM" (Member CCD) = Some HEM_url
  /\ http_get asserting HEM_url = inl AssertionError
  /\ fst (get_ligand_cif "HEM" (Member CCD) asserting w) = Ok None
  /\ printed (emitted w (snd (get_ligand_cif "HEM" (Member CCD) asserting w)))
     = [diagnostic "HEM" (Member CCD)]
  /\ ~ (forall e, http_get asserting HEM_url = inl e ->
          fst (get_ligand_cif "HEM" (Member CCD) asserting w) = Raise e).
Proof.
  intros w.
  split; [vm_compute; reflexivity|]. split; [reflexivity|].
  split; [vm_compute; reflexivity|]. split; [vm_compute; reflexivity|].
  intros H. specialize (H AssertionError eq_refl). vm_compute in H. discriminate.
Qed.

(** ** The working directory is an input *)

(** C9, as first stated, fails when the working directory differs between
    the two fetches: the same identifier, category and payload give the
    path ["/a/HEM.cif"] from ["/a"] and ["/b/HEM.cif"] from ["/b"]. *)
Lemma same_fetch_from_two_directories :
  let env := serving HEM_url (bytes_of "data_HEM") in
  fst (get_ligand_cif "HEM" (Member CCD) env (empty_world "/a")) = Ok (Some "/a/HEM.cif")
  /\ fst (get_ligand_cif "HEM" (Member CCD) env (empty_world "/b")) = Ok (Some "/b/HEM.cif")
  /\ ~ (forall (w1 w2 w1' w2' : world) (p1 p2 : string),
          get_ligand_cif "HEM" (Member CCD) env w1 = (Ok (Some p1), w1') ->
          get_ligand_cif "HEM" (Member CCD) env w2 = (Ok (Some p2), w2') ->
          p1 = p2).
Proof.
  intros env.
  split; [vm_compute; reflexivity|]. split; [vm_compute; reflexivity|].
  intros H.
  assert (E : "/a/HEM.cif" = "/b/HEM.cif").
  { apply (H (empty_world "/a") (empty_world "/b")
             (snd (get_ligand_cif "HEM" (Member CCD) env (empty_world "/a")))
             (snd (get_ligand_cif "HEM" (Member CCD) env (empty_world "/b"))));
      vm_compute; reflexivity. }
  discriminate.
Qed.
